(** * RAG-LangGraph question answering pipeline: orchestrator model

    A shallow embedding of the workflow orchestrator of [app/tools/graph.py]
    and of the three collaborators whose code decides the properties below:
    [app/nodes/rag_agent.py] (intent parsing), [app/nodes/sparql_exec.py]
    (query execution) and [app/nodes/normalize_time_agent.py] (time windows).

    Python code that mutates the request dictionary and raises or catches
    exceptions is written in a state-and-exception monad; everything the
    program obtains from outside itself (the language model, the vector
    index, the RDF store, clocks, regular expressions, Unicode string
    methods) is a field of the record [Env]. *)

From Stdlib Require Import Ascii.
From stdpp Require Import gmap strings list pretty.

Set Warnings "-register-all".

(** ** Python values, exceptions and the monad of effects *)

Module Py.

(** An exception object: the name of its class and [str(e)].  Only
    subclasses of [Exception] are modelled, which is what [except Exception]
    catches. *)
Record exn := Exn { exn_type : string; exn_msg : string }.

Inductive outcome (A : Type) :=
| Ret (a : A)
| Raise (e : exn).
Arguments Ret {A} a.
Arguments Raise {A} e.

#[global] Instance outcome_ret : MRet outcome := fun A a => Ret a.

#[global] Instance outcome_bind : MBind outcome := fun A B k o =>
  match o with
  | Ret a => k a
  | Raise e => Raise e
  end.

Definition KeyError (k : string) : exn := Exn "KeyError" k.
Definition AttributeError (m : string) : exn := Exn "AttributeError" m.
Definition TypeError (m : string) : exn := Exn "TypeError" m.
Definition ValueError (m : string) : exn := Exn "ValueError" m.
Definition IndexError (m : string) : exn := Exn "IndexError" m.

(** Values that JSON decoding can put into the hints dictionary. *)
Inductive pyval :=
| PNone
| PBool (b : bool)
| PInt (z : Z)
| PStr (s : string)
| PList (l : list pyval)
| PDict (d : gmap string pyval).

(** [bool(v)] *)
Definition truthy (v : pyval) : bool :=
  match v with
  | PNone => false
  | PBool b => b
  | PInt z => negb (z =? 0)%Z
  | PStr s => negb (String.eqb s "")
  | PList l => match l with [] => false | _ :: _ => true end
  | PDict d => negb (Nat.eqb (size d) 0)
  end.

(** [type(v).__name__] *)
Definition type_name (v : pyval) : string :=
  match v with
  | PNone => "NoneType"
  | PBool _ => "bool"
  | PInt _ => "int"
  | PStr _ => "str"
  | PList _ => "list"
  | PDict _ => "dict"
  end.

(** [v.get(k)]: only a dictionary has the method. *)
Definition py_get (v : pyval) (k : string) : outcome (option pyval) :=
  match v with
  | PDict d => Ret (d !! k)
  | _ => Raise (AttributeError ("'" +:+ type_name v +:+ "' object has no attribute 'get'"))
  end.

(** [bool(d.get(k))]: a missing key gives [None], which is falsy. *)
Definition truthy_opt (o : option pyval) : bool :=
  match o with Some v => truthy v | None => false end.

(** [v == s] for a string literal [s]. *)
Definition eq_str (o : option pyval) (s : string) : bool :=
  match o with Some (PStr t) => String.eqb t s | _ => false end.

Definition nl : string := String (Ascii.ascii_of_nat 10) EmptyString.

(** [sep.join(l)] *)
Fixpoint join (sep : string) (l : list string) : string :=
  match l with
  | [] => ""
  | [x] => x
  | x :: rest => x +:+ sep +:+ join sep rest
  end.

(** [needle in s] on strings *)
Fixpoint is_prefix (p s : string) : bool :=
  match p, s with
  | EmptyString, _ => true
  | String a p', String b s' => if Ascii.eqb a b then is_prefix p' s' else false
  | String _ _, EmptyString => false
  end.

Fixpoint contains (s needle : string) : bool :=
  if is_prefix needle s then true
  else match s with
       | EmptyString => false
       | String _ s' => contains s' needle
       end.

(** The monad: a computation reads and writes a store [S] and either
    returns or raises.  The store survives a raise, as a Python object
    mutated before the exception does. *)
Definition M (S A : Type) : Type := S -> outcome A * S.

#[global] Instance M_ret {S} : MRet (M S) := fun A a s => (Ret a, s).

#[global] Instance M_bind {S} : MBind (M S) := fun A B k m s =>
  match m s with
  | (Ret a, s') => k a s'
  | (Raise e, s') => (Raise e, s')
  end.

Definition raise {S A} (e : exn) : M S A := fun s => (Raise e, s).

(** [try: body  except Exception as e: handler e] *)
Definition try_except {S A} (body : M S A) (handler : exn -> M S A) : M S A :=
  fun s =>
    match body s with
    | (Ret a, s') => (Ret a, s')
    | (Raise e, s') => handler e s'
    end.

Definition gets {S A} (f : S -> A) : M S A := fun s => (Ret (f s), s).
Definition modify {S} (f : S -> S) : M S unit := fun s => (Ret tt, f s).

(** Turn a pure fallible result into a computation. *)
Definition lift_outcome {S A} (o : outcome A) : M S A := fun s => (o, s).

(** Run a computation on a component of the store. *)
Definition zoom {S S' A} (get : S -> S') (set : S' -> S -> S) (m : M S' A) : M S A :=
  fun s => let '(r, s') := m (get s) in (r, set s' s).

End Py.
Export Py.

(** ** The time window written by the normalize-time step

    [normalize_time] returns a dictionary with exactly these five keys. *)
Record TimeWindow := mkTimeWindow {
  start_local : option string;
  end_local : option string;
  label : string;
  ok : bool;
  error : option string
}.

(** One retrieved chunk: its text and its score as [f"{score:.3f}"] prints it. *)
Record Chunk := mkChunk { chunk_text : string; chunk_score : string }.

(** What iterating an rdflib query result gives: the variable names
    ([str(v)] for each of [qres.vars]) and, per row, [str] of each term. *)
Record QRes := mkQRes { qvars : list string; qrows : list (list string) }.

(** A result row after [_norm_row]: string keys, string values. *)
Abbreviation Row := (gmap string string).
Abbreviation Hints := (gmap string pyval).

(** ** The environment

    Everything the model takes from outside: libraries, files, the network,
    the clock, and the repository's own collaborators that the orchestrator
    treats as fallible black boxes.  [W] is the state of the outside world;
    an operation that depends on it or changes it takes and returns a [W].
    An operation that can raise returns an [outcome]. *)
Record Env := mkEnv {
  W : Type;
  LLM : Type;        (* a chat model handle *)
  Graph : Type;      (* an rdflib Graph *)
  Instant : Type;    (* a time.perf_counter() reading *)
  DateTime : Type;   (* a zone-aware datetime *)

  (* rag_agent.py: the prompt file and the chat model *)
  read_prompt_file : W -> outcome (option string) * W;
      (* text of the first of ABS_PROMPT, REL_PROMPT that exists *)
  prompt_path : W -> string;
      (* str(ABS_PROMPT if ABS_PROMPT.exists() else REL_PROMPT) *)
  init_chat_model : W -> option LLM * W;
      (* the model for DEEPSEEK_API_KEY, None without key or on failure *)
  strftime_today : W -> string * W;
  llm_invoke : LLM -> string -> W -> outcome string * W;
      (* llm.invoke(prompt), reduced to the text of the reply *)
  llm_predict : LLM -> string -> W -> outcome string * W;
  json_object : string -> option Hints;
      (* re.search(r"\{.*\}") then json.loads, None unless a dict *)
  re_search_room : string -> option string;
      (* group 1 of r"(?<!\d)(\d{1,4})(?!\d)" *)
  str_lower : string -> string;
  str_upper : string -> string;
  str_strip : string -> string;
  str_split : string -> list string;
  py_repr : pyval -> string;
  (* rag_agent.py: search, with the sentence encoder and the faiss index *)
  faiss_search : string -> W -> outcome (list Chunk) * W;
  (* the query generators: the templates of sparql_agent.generate,
     sparql_agent.llm_based_sparql_generation (question, context, hints) and
     rag_agent.advanced_text_to_sparql (question, retrieved_context, hints) *)
  template_query : string -> Hints -> W -> outcome string * W;
  llm_based_sparql_generation : string -> string -> Hints -> W -> outcome string * W;
  advanced_text_to_sparql : string -> string -> Hints -> W -> outcome string * W;
  (* sparql_exec.py: the RDF store and the clock around a query *)
  rdflib_parse : W -> outcome Graph * W;
      (* g = Graph(); g.parse(str(TTL_PATH), format="turtle") *)
  rdflib_query : Graph -> string -> W -> outcome QRes * W;
  perf_counter : W -> Instant * W;
  elapsed_ms : Instant -> Instant -> Z;
      (* int((t1 - t0) * 1000) *)
  (* normalize_time_agent.py: clock and calendar *)
  datetime_now : W -> DateTime * W;
  start_of_day : DateTime -> DateTime;
  plus_days : DateTime -> Z -> outcome DateTime;
      (* dt + timedelta(days=n) *)
  plus_hours : DateTime -> Z -> outcome DateTime;
  strptime : string -> string -> option DateTime;
      (* datetime.strptime(s, fmt) in the configured zone, None for ValueError *)
  isoformat : DateTime -> string;
  int_of_str : string -> option Z;
  (* analysis_agent.py and answer_agent.py: the entry points, with the
     parts of the state they read *)
  analyze_state :
    option (list Row) -> option TimeWindow -> option Hints ->
    W -> outcome (list Hints) * W;
  analyze_point_in_time_state :
    option (list Row) -> option TimeWindow -> W -> outcome (list Hints) * W;
  compose :
    string -> list Row -> list Hints -> Hints -> option TimeWindow -> list Row ->
    W -> outcome string * W
}.

(** The interpreter process: the module-level caches of the collaborators
    ([_prompt_cache] and [_LLM] of rag_agent.py, [_RDF] of sparql_exec.py)
    and the outside world. *)
Record Proc (E : Env) := mkProc {
  _prompt_cache : option string;
  _LLM : option (LLM E);
  _RDF : option (Graph E);
  world : W E
}.
Arguments mkProc {E}.
Arguments _prompt_cache {E}.
Arguments _LLM {E}.
Arguments _RDF {E}.
Arguments world {E}.

Section ProcOps.
Context {E : Env}.

Definition set_prompt_cache (v : option string) (p : Proc E) : Proc E :=
  mkProc v (_LLM p) (_RDF p) (world p).

Definition set_LLM (v : option (LLM E)) (p : Proc E) : Proc E :=
  mkProc (_prompt_cache p) v (_RDF p) (world p).

Definition set_RDF (v : option (Graph E)) (p : Proc E) : Proc E :=
  mkProc (_prompt_cache p) (_LLM p) v (world p).

Definition set_world (w : W E) (p : Proc E) : Proc E :=
  mkProc (_prompt_cache p) (_LLM p) (_RDF p) w.

(** Call an operation of the environment that may raise. *)
Definition call {A} (f : W E -> outcome A * W E) : M (Proc E) A :=
  zoom world set_world f.

(** Call an operation of the environment that cannot raise. *)
Definition ask {A} (f : W E -> A * W E) : M (Proc E) A :=
  fun p => let '(a, w) := f (world p) in (Ret a, set_world w p).
End ProcOps.

(** ** Request State

    [State] of graph.py is a [TypedDict] with [total=False]: every key may be
    missing, so every field is an option ([None] here is a missing key).  The
    last two keys are not declared in the class but are written by the
    handlers and read by the caller.  [analysis_error] is set to Python's
    [None] on success, hence the nested option. *)
Record State := mkState {
  question : option string;
  need_stats : option bool;
  have_rows : option bool;
  retries : option Z;
  max_retries : option Z;
  hints : option Hints;
  time_window : option TimeWindow;
  context : option string;
  sparql : option string;
  rows : option (list Row);
  analysis : option (list Hints);
  analysis_error : option (option string);
  answer : option string;
  trace : option (list string);
  topology_all_rooms : option (list Row);
  sparql_history : option (list (string * string));
  fallback_strategy : option string
}.

Definition set_question (v : option string) (s : State) : State :=
  mkState v (need_stats s) (have_rows s) (retries s) (max_retries s) (hints s)
    (time_window s) (context s) (sparql s) (rows s) (analysis s) (analysis_error s)
    (answer s) (trace s) (topology_all_rooms s) (sparql_history s)
    (fallback_strategy s).

Definition set_need_stats (v : option bool) (s : State) : State :=
  mkState (question s) v (have_rows s) (retries s) (max_retries s) (hints s)
    (time_window s) (context s) (sparql s) (rows s) (analysis s) (analysis_error s)
    (answer s) (trace s) (topology_all_rooms s) (sparql_history s)
    (fallback_strategy s).

Definition set_have_rows (v : option bool) (s : State) : State :=
  mkState (question s) (need_stats s) v (retries s) (max_retries s) (hints s)
    (time_window s) (context s) (sparql s) (rows s) (analysis s) (analysis_error s)
    (answer s) (trace s) (topology_all_rooms s) (sparql_history s)
    (fallback_strategy s).

Definition set_retries (v : option Z) (s : State) : State :=
  mkState (question s) (need_stats s) (have_rows s) v (max_retries s) (hints s)
    (time_window s) (context s) (sparql s) (rows s) (analysis s) (analysis_error s)
    (answer s) (trace s) (topology_all_rooms s) (sparql_history s)
    (fallback_strategy s).

Definition set_max_retries (v : option Z) (s : State) : State :=
  mkState (question s) (need_stats s) (have_rows s) (retries s) v (hints s)
    (time_window s) (context s) (sparql s) (rows s) (analysis s) (analysis_error s)
    (answer s) (trace s) (topology_all_rooms s) (sparql_history s)
    (fallback_strategy s).

Definition set_hints (v : option Hints) (s : State) : State :=
  mkState (question s) (need_stats s) (have_rows s) (retries s) (max_retries s) v
    (time_window s) (context s) (sparql s) (rows s) (analysis s) (analysis_error s)
    (answer s) (trace s) (topology_all_rooms s) (sparql_history s)
    (fallback_strategy s).

Definition set_time_window (v : option TimeWindow) (s : State) : State :=
  mkState (question s) (need_stats s) (have_rows s) (retries s) (max_retries s)
    (hints s) v (context s) (sparql s) (rows s) (analysis s) (analysis_error s)
    (answer s) (trace s) (topology_all_rooms s) (sparql_history s)
    (fallback_strategy s).

Definition set_context (v : option string) (s : State) : State :=
  mkState (question s) (need_stats s) (have_rows s) (retries s) (max_retries s)
    (hints s) (time_window s) v (sparql s) (rows s) (analysis s) (analysis_error s)
    (answer s) (trace s) (topology_all_rooms s) (sparql_history s)
    (fallback_strategy s).

Definition set_sparql (v : option string) (s : State) : State :=
  mkState (question s) (need_stats s) (have_rows s) (retries s) (max_retries s)
    (hints s) (time_window s) (context s) v (rows s) (analysis s) (analysis_error s)
    (answer s) (trace s) (topology_all_rooms s) (sparql_history s)
    (fallback_strategy s).

Definition set_rows (v : option (list Row)) (s : State) : State :=
  mkState (question s) (need_stats s) (have_rows s) (retries s) (max_retries s)
    (hints s) (time_window s) (context s) (sparql s) v (analysis s) (analysis_error s)
    (answer s) (trace s) (topology_all_rooms s) (sparql_history s)
    (fallback_strategy s).

Definition set_analysis (v : option (list Hints)) (s : State) : State :=
  mkState (question s) (need_stats s) (have_rows s) (retries s) (max_retries s)
    (hints s) (time_window s) (context s) (sparql s) (rows s) v (analysis_error s)
    (answer s) (trace s) (topology_all_rooms s) (sparql_history s)
    (fallback_strategy s).

Definition set_analysis_error (v : option (option string)) (s : State) : State :=
  mkState (question s) (need_stats s) (have_rows s) (retries s) (max_retries s)
    (hints s) (time_window s) (context s) (sparql s) (rows s) (analysis s) v (answer s)
    (trace s) (topology_all_rooms s) (sparql_history s) (fallback_strategy s).

Definition set_answer (v : option string) (s : State) : State :=
  mkState (question s) (need_stats s) (have_rows s) (retries s) (max_retries s)
    (hints s) (time_window s) (context s) (sparql s) (rows s) (analysis s)
    (analysis_error s) v (trace s) (topology_all_rooms s) (sparql_history s)
    (fallback_strategy s).

Definition set_trace (v : option (list string)) (s : State) : State :=
  mkState (question s) (need_stats s) (have_rows s) (retries s) (max_retries s)
    (hints s) (time_window s) (context s) (sparql s) (rows s) (analysis s)
    (analysis_error s) (answer s) v (topology_all_rooms s) (sparql_history s)
    (fallback_strategy s).

Definition set_topology_all_rooms (v : option (list Row)) (s : State) : State :=
  mkState (question s) (need_stats s) (have_rows s) (retries s) (max_retries s)
    (hints s) (time_window s) (context s) (sparql s) (rows s) (analysis s)
    (analysis_error s) (answer s) (trace s) v (sparql_history s) (fallback_strategy s).

Definition set_sparql_history (v : option (list (string * string))) (s : State) : State :=
  mkState (question s) (need_stats s) (have_rows s) (retries s) (max_retries s)
    (hints s) (time_window s) (context s) (sparql s) (rows s) (analysis s)
    (analysis_error s) (answer s) (trace s) (topology_all_rooms s) v
    (fallback_strategy s).

Definition set_fallback_strategy (v : option string) (s : State) : State :=
  mkState (question s) (need_stats s) (have_rows s) (retries s) (max_retries s)
    (hints s) (time_window s) (context s) (sparql s) (rows s) (analysis s)
    (analysis_error s) (answer s) (trace s) (topology_all_rooms s) (sparql_history s)
    v.

(** The store of a request: its state dictionary and the process it runs in. *)
Record Store (E : Env) := mkStore { state : State; proc : Proc E }.
Arguments mkStore {E}.
Arguments state {E}.
Arguments proc {E}.

Section StoreOps.
Context {E : Env}.

Definition set_state (st : State) (s : Store E) : Store E := mkStore st (proc s).

Definition set_proc (p : Proc E) (s : Store E) : Store E := mkStore (state s) p.

(** [state.get(key)] and friends: read the state. *)
Definition read {A} (f : State -> A) : M (Store E) A := gets (fun s => f (state s)).

(** [state[key] = v]: write the state. *)
Definition write (f : State -> State) : M (Store E) unit :=
  modify (fun s => set_state (f (state s)) s).

(** Run collaborator code, which sees the process but not the state. *)
Definition collab {A} (m : M (Proc E) A) : M (Store E) A := zoom proc set_proc m.

(** [state["question"]] *)
Definition getitem_question : M (Store E) string :=
  q ← read question;
  match q with
  | Some s => mret s
  | None => raise (KeyError "'question'")
  end.

(** [state.setdefault("trace", []).append(name)] *)
Definition trace_append (name : string) : M (Store E) unit :=
  write (fun st => set_trace (Some (default [] (trace st) ++ [name])) st).
End StoreOps.

(** ** app/nodes/normalize_time_agent.py *)

Module normalize_time_agent.
Section WithEnv.
Context {E : Env}.

Definition _now_local : M (Proc E) (DateTime E) := ask (datetime_now E).

Definition _start_of_day (dt : DateTime E) : DateTime E := start_of_day E dt.

(** [int(v)] *)
Definition py_int (v : pyval) : outcome Z :=
  match v with
  | PInt z => Ret z
  | PBool b => Ret (if b then 1 else 0)%Z
  | PStr s =>
      match int_of_str E s with
      | Some z => Ret z
      | None => Raise (ValueError ("invalid literal for int() with base 10: '" +:+ s +:+ "'"))
      end
  | _ => Raise (TypeError ("int() argument must be a string, a bytes-like object or a real number, not '"
                           +:+ type_name v +:+ "'"))
  end.

(** [f"{v}"] where [v] is known to be a string: [_parse_dt] has already
    raised for every other value when a label is built from it. *)
Definition str_of (v : pyval) : string :=
  match v with PStr s => s | _ => "" end.

Definition _parse_dt (v : pyval) : outcome (DateTime E) :=
  if negb (truthy v) then Raise (ValueError "空字符串无法解析时间")
  else
    match v with
    | PStr s =>
        match strptime E s "%Y-%m-%dT%H:%M" with
        | Some dt => Ret dt
        | None =>
            match strptime E s "%Y-%m-%d" with
            | Some dt => Ret dt
            | None => Raise (ValueError ("无法解析时间字符串: " +:+ s))
            end
        end
    | _ => Raise (TypeError ("strptime() argument 1 must be str, not " +:+ type_name v))
    end.

Definition _window_relative_days (now_local : DateTime E) (days_ago : Z)
  : outcome (DateTime E * DateTime E * string) :=
  base ← plus_days E (_start_of_day now_local) (- days_ago);
  let start := base in
  end_ ← plus_days E base 1;
  let label := if (days_ago =? 1)%Z then "昨天" else pretty days_ago +:+ "天前" in
  mret (start, end_, label).

Definition _window_last_hours (now_local : DateTime E) (hours : Z)
  : outcome (DateTime E * DateTime E * string) :=
  let end_ := now_local in
  start ← plus_hours E end_ (- hours);
  let label := "最近" +:+ pretty hours +:+ "小时" in
  mret (start, end_, label).

Definition _window_absolute (start_str end_str : pyval)
  : outcome (DateTime E * DateTime E * string) :=
  start ← _parse_dt start_str;
  end_ ← _parse_dt end_str;
  let label := str_of start_str +:+ " ~ " +:+ str_of end_str in
  mret (start, end_, label).

Definition _window_point_in_time (at_str : pyval)
  : outcome (DateTime E * DateTime E * string) :=
  at_ ← _parse_dt at_str;
  let start := at_ in
  end_ ← plus_hours E at_ 1;
  let label := str_of at_str in
  mret (start, end_, label).

(** The dictionary every recognised kind returns. *)
Definition window_ok (w : DateTime E * DateTime E * string) : TimeWindow :=
  let '(start, end_, label) := w in
  mkTimeWindow (Some (isoformat E start)) (Some (isoformat E end_)) label true None.

(** The body of the [try] block of [normalize_time]. *)
Definition normalize_time_body (now_local : DateTime E) (tr : pyval) : outcome TimeWindow :=
  kind ← py_get tr "kind";
  if eq_str kind "relative_days" then
    v ← py_get tr "days_ago";
    days_ago ← py_int (default (PInt 1) v);
    w ← _window_relative_days now_local days_ago;
    mret (window_ok w)
  else if eq_str kind "last_hours" then
    v ← py_get tr "hours";
    hours ← py_int (default (PInt 6) v);
    w ← _window_last_hours now_local (Z.max 1 hours);
    mret (window_ok w)
  else if eq_str kind "absolute" then
    a ← py_get tr "start";
    b ← py_get tr "end";
    w ← _window_absolute (default (PStr "") a) (default (PStr "") b);
    mret (window_ok w)
  else if eq_str kind "point_in_time" then
    a ← py_get tr "at";
    w ← _window_point_in_time (default (PStr "") a);
    mret (window_ok w)
  else
    mret (mkTimeWindow None None "（无时间限定）" true None).

Definition normalize_time (hints : Hints) : M (Proc E) TimeWindow :=
  now_local ← _now_local;
  (* tr = hints.get("time_range") or {} *)
  let tr := match hints !! "time_range" with
            | Some v => if truthy v then v else PDict ∅
            | None => PDict ∅
            end in
  try_except
    (lift_outcome (normalize_time_body now_local tr))
    (fun e => mret (mkTimeWindow None None "（时间解析失败）" false
                      (Some ("时间解析失败: " +:+ exn_msg e)))).

Definition node_normalize_time : M (Store E) unit :=
  (* hints = state.get("hints", {}) or {} *)
  h ← read hints;
  let hints := default ∅ h in
  result ← collab (normalize_time hints);
  write (set_time_window (Some result));;
  (* trace = list(state.get("trace", [])); trace.append(...); state["trace"] = trace *)
  tr ← read trace;
  let trace := default [] tr ++ ["normalize_time"] in
  write (set_trace (Some trace)).
End WithEnv.
End normalize_time_agent.

(** ** app/nodes/rag_agent.py *)

Module rag_agent.
Section WithEnv.
Context {E : Env}.

(** The loop over the two candidate paths is [read_prompt_file]: the text
    of the first file that exists, [None] when neither does. *)
Definition _load_prompt : M (Proc E) (option string) :=
  c ← gets _prompt_cache;
  match c with
  | Some p => mret (Some p)
  | None =>
      r ← call (read_prompt_file E);
      match r with
      | Some txt => modify (set_prompt_cache (Some txt));; mret (Some txt)
      | None => mret None
      end
  end.

(** [init_chat_model] stands for everything after the cache test: [None]
    without an API key or when the constructor raises. *)
Definition _get_llm : M (Proc E) (option (LLM E)) :=
  c ← gets _LLM;
  match c with
  | Some l => mret (Some l)
  | None =>
      r ← ask (init_chat_model E);
      match r with
      | Some l => modify (set_LLM (Some l));; mret (Some l)
      | None => mret None
      end
  end.

(** [json_object] is the regular expression search followed by
    [json.loads], [None] unless this gives a dictionary. *)
Definition _safe_json_from_text (s : string) : option Hints :=
  if String.eqb s "" then None else json_object E s.

Definition _neutral (question source_reason : string) : M (Proc E) Hints :=
  path ← gets (fun p => prompt_path E (world p));
  mret (list_to_map
          [ ("question_type", PStr "other"); ("topology_intent", PNone);
            ("need_stats", PBool false);
            ("need", PNone); ("room", PNone); ("metric", PNone);
            ("time_range", PNone);
            ("uncertain", PBool true); ("ambiguities", PList []);
            ("_source", PStr source_reason);
            ("_prompt", PStr path) ]).

Definition ALLOWED_NEEDS : list string := ["avg"; "max"; "min"; "trend"].
Definition ALLOWED_QTYPE : list string := ["timeseries"; "topology"; "other"].
Definition ALLOWED_TOPO_INTENT : list string :=
  ["count_rooms"; "list_rooms"; "sensor_existence"].

Definition mem (s : string) (l : list string) : bool := bool_decide (s ∈ l).

(** [str(v)] *)
Definition py_str (v : pyval) : string :=
  match v with
  | PStr s => s
  | PNone => "None"
  | PBool b => if b then "True" else "False"
  | PInt z => pretty z
  | _ => py_repr E v
  end.

(** The list comprehension of [_normalize_need]. *)
Fixpoint keep_needs (x : list pyval) : list pyval :=
  match x with
  | [] => []
  | PStr n :: rest =>
      let n' := str_lower E (str_strip E n) in
      if mem n' ALLOWED_NEEDS then PStr n' :: keep_needs rest else keep_needs rest
  | _ :: rest => keep_needs rest
  end.

Definition _normalize_need (x : option pyval) : pyval :=
  match x with
  | None => PNone
  | Some v =>
      if negb (truthy v) then PNone
      else match v with
           | PStr s => PList (keep_needs [PStr s])
           | PList l => PList (keep_needs l)
           | _ => PNone
           end
  end.

(** The field cleaning of [llm_parse], from the decoded dictionary to the
    hints it returns. *)
Definition clean_fields (data : Hints) (path : string) : Hints :=
  let qtype := str_lower E (py_str (default (PStr "other") (data !! "question_type"))) in
  let qtype := if mem qtype ALLOWED_QTYPE then qtype else "other" in
  let topo_intent :=
    match data !! "topology_intent" with
    | Some (PStr s) =>
        let t := str_strip E (str_lower E s) in
        if mem t ALLOWED_TOPO_INTENT then PStr t else PNone
    | Some v => v
    | None => PNone
    end in
  let need := _normalize_need (data !! "need") in
  let need_stats := truthy_opt (data !! "need_stats") || truthy need in
  let room :=
    match data !! "room" with
    | Some (PStr s) =>
        match re_search_room E s with Some d => PStr d | None => PNone end
    | Some v => v
    | None => PNone
    end in
  let metric :=
    match data !! "metric" with
    | Some (PStr s) =>
        if mem s ["temp"; "rh"; "lux"; "co2"; "pm25"] then PStr s else PNone
    | _ => PNone
    end in
  let time_range :=
    match data !! "time_range" with
    | Some (PDict d) =>
        match d !! "kind" with Some _ => PDict d | None => PNone end
    | _ => PNone
    end in
  let uncertain := truthy (default (PBool false) (data !! "uncertain")) in
  let ambiguities :=
    match data !! "ambiguities" with
    | Some v =>
        if truthy v
        then match v with PList l => PList l | _ => PList [PStr (py_str v)] end
        else PList []
    | None => PList []
    end in
  list_to_map
    [ ("question_type", PStr qtype); ("topology_intent", topo_intent);
      ("need_stats", PBool need_stats);
      ("need", need); ("room", room); ("metric", metric);
      ("time_range", time_range);
      ("uncertain", PBool uncertain); ("ambiguities", ambiguities);
      ("_source", PStr "llm");
      ("_prompt", PStr path) ].

Definition llm_parse (question : string) : M (Proc E) Hints :=
  prompt ← _load_prompt;
  match prompt with
  | None => _neutral question "no-prompt"
  | Some "" => _neutral question "no-prompt"
  | Some prompt =>
      llm ← _get_llm;
      match llm with
      | None => _neutral question "no-llm"
      | Some llm =>
          try_except
            (current_time ← ask (strftime_today E);
             let dynamic_prompt :=
               "**重要：当前系统时间是 " +:+ current_time +:+ "。**" +:+ nl +:+ nl +:+ prompt in
             let full_prompt := dynamic_prompt +:+ nl +:+ nl +:+ "用户问题：" +:+ question in
             text ← try_except (call (llm_invoke E llm full_prompt))
                               (fun _ => call (llm_predict E llm full_prompt));
             match _safe_json_from_text text with
             | None => _neutral question "parse-error"
             | Some data =>
                 if negb (truthy (PDict data)) then _neutral question "parse-error"
                 else
                   path ← gets (fun p => prompt_path E (world p));
                   mret (clean_fields data path)
             end)
            (fun _ => _neutral question "llm-error")
      end
  end.

Definition get_hints (question : string) : M (Proc E) Hints := llm_parse question.

Definition need_stats (question : string) : M (Proc E) bool :=
  try_except
    (h ← llm_parse question; mret (truthy_opt (h !! "need_stats")))
    (fun _ => mret false).

(** [search] needs the sentence encoder and the similarity index. *)
Definition search (question : string) : M (Proc E) (list Chunk) :=
  call (faiss_search E question).

Fixpoint context_parts (i : nat) (chunks : list Chunk) : list string :=
  match chunks with
  | [] => []
  | c :: rest =>
      ("[" +:+ pretty (i + 1)%nat +:+ "] " +:+ chunk_text c
         +:+ " (score=" +:+ chunk_score c +:+ ")") :: context_parts (S i) rest
  end.

Definition build_context (chunks : list Chunk) : string :=
  match chunks with
  | [] => ""
  | _ => "以下是与问题相关的建筑知识片段：" +:+ nl +:+ join nl (context_parts 0 chunks)
  end.
End WithEnv.
End rag_agent.

(** ** app/nodes/sparql_agent.py

    The template generator reads its second argument [context] nowhere.
    Before it chooses a template it runs [hints = hints or {}] and
    [hints["question"] = question]; the query text itself is
    [template_query]. *)

Module sparql_agent.
Section WithEnv.
Context {E : Env}.

Definition generate (question context : string) (hints : Hints) : M (Proc E) string :=
  call (template_query E question (<["question" := PStr question]> hints)).
End WithEnv.
End sparql_agent.

(** ** app/nodes/sparql_exec.py *)

Module sparql_exec.
Section WithEnv.
Context {E : Env}.

Definition _get_graph : M (Proc E) (Graph E) :=
  c ← gets _RDF;
  match c with
  | Some g => mret g
  | None =>
      g ← call (rdflib_parse E);
      modify (set_RDF (Some g));;
      mret g
  end.

(** The bracket loop of [_basic_syntax_check]: [None] is its
    [return False], [Some stack] the stack at the end of the string. *)
Definition closer (op : ascii) : ascii :=
  if Ascii.eqb op "(" then ")" else if Ascii.eqb op "{" then "}" else "]".

Fixpoint brackets (q : string) (stack : list ascii) : option (list ascii) :=
  match q with
  | EmptyString => Some stack
  | String ch rest =>
      if Ascii.eqb ch "(" || Ascii.eqb ch "{" || Ascii.eqb ch "["
      then brackets rest (ch :: stack)
      else if Ascii.eqb ch ")" || Ascii.eqb ch "}" || Ascii.eqb ch "]"
      then match stack with
           | [] => None
           | op :: stack' =>
               if Ascii.eqb (closer op) ch then brackets rest stack' else None
           end
      else brackets rest stack
  end.

(** [q.replace("\n", " ")] *)
Fixpoint replace_nl (q : string) : string :=
  match q with
  | EmptyString => EmptyString
  | String ch rest =>
      String (if Ascii.eqb ch (Ascii.ascii_of_nat 10) then " "%char else ch) (replace_nl rest)
  end.

Definition _basic_syntax_check (q : string) : bool :=
  if String.eqb q "" then false
  else
    match brackets q [] with
    | None => false
    | Some (_ :: _) => false
    | Some [] =>
        let tokens := str_split E (replace_nl q) in
        let uses_prefix :=
          existsb (fun t => contains t ":" && negb (is_prefix "http" t)
                            && negb (is_prefix "PREFIX" (str_upper E t))) tokens in
        if uses_prefix && negb (contains (str_upper E q) "PREFIX") then false else true
    end.

Definition _norm_row (item : Row) : Row :=
  let out := item in
  match out !! "tsid", out !! "ts_id" with
  | None, Some v => <["tsid" := v]> out
  | _, _ => out
  end.

(** [{vars_[i]: r[i] for i in range(len(vars_))}], from index [i] on. *)
Fixpoint item_of_vars (vars_ : list string) (r : list string) (i : nat) (item : Row)
  : outcome Row :=
  match vars_ with
  | [] => Ret item
  | v :: rest =>
      match r !! i with
      | Some x => item_of_vars rest r (S i) (<[v := x]> item)
      | None => Raise (IndexError "tuple index out of range")
      end
  end.

(** [{f"col{i}": v for i, v in enumerate(r)}], from index [i] on. *)
Fixpoint item_of_cols (r : list string) (i : nat) (item : Row) : Row :=
  match r with
  | [] => item
  | v :: rest => item_of_cols rest (S i) (<["col" +:+ pretty i := v]> item)
  end.

(** The [for r in qres] loop. *)
Fixpoint build_rows (vars_ : list string) (rs : list (list string)) : outcome (list Row) :=
  match rs with
  | [] => Ret []
  | r :: rest =>
      item ← match vars_ with
             | _ :: _ => item_of_vars vars_ r 0 ∅
             | [] => Ret (item_of_cols r 0 ∅)
             end;
      rows ← build_rows vars_ rest;
      mret (_norm_row item :: rows)
  end.

Definition execute (query : string) : M (Proc E) (list Row) :=
  if negb (_basic_syntax_check query) then mret []
  else
    g ← _get_graph;
    t0 ← ask (perf_counter E);
    r ← try_except (qres ← call (rdflib_query E g query); mret (Some qres))
                   (fun _ => mret None);
    match r with
    | None => mret []
    | Some qres =>
        t1 ← ask (perf_counter E);
        let elapsed := elapsed_ms E t0 t1 in
        rows ← lift_outcome (build_rows (qvars qres) (qrows qres));
        match rows with
        | [] => mret []
        | first :: rest => mret (<["__elapsed_ms" := pretty elapsed]> first :: rest)
        end
    end.
End WithEnv.
End sparql_exec.

(** ** app/tools/graph.py: step handlers *)

Module graph.
Section WithEnv.
Context {E : Env}.

Definition USE_RAG : bool := true.

(** [bool(s)] for an optional string, as in [if state.get("sparql")]. *)
Definition nonempty (o : option string) : bool :=
  match o with Some s => negb (String.eqb s "") | None => false end.

Definition node_intent : M (Store E) unit :=
  trace_append "intent";;
  try_except
    (q ← getitem_question;
     h ← collab (rag_agent.get_hints q);
     write (set_hints (Some h));;
     q ← getitem_question;
     ns ← collab (rag_agent.need_stats q);
     write (set_need_stats (Some ns)))
    (fun _ =>
       write (set_hints (Some ∅));;
       write (set_need_stats (Some false)));;
  write (set_retries (Some 0%Z));;
  write (set_max_retries (Some 1%Z)).

Definition node_rag : M (Store E) unit :=
  trace_append "rag";;
  try_except
    (q ← getitem_question;
     chunks ← collab (rag_agent.search q);
     write (set_context (Some (rag_agent.build_context chunks))))
    (fun _ => write (set_context (Some ""))).

Definition node_normalize_time : M (Store E) unit :=
  normalize_time_agent.node_normalize_time.

Definition node_generate_sparql : M (Store E) unit :=
  trace_append "generate_sparql";;
  sp ← read sparql;
  if nonempty sp then mret tt
  else
    try_except
      (h ← read hints;
       q ← getitem_question;
       c ← read context;
       (* inside generate, [hints = hints or {}] is the state's own
          dictionary when that is not empty, and it gains a key *)
       match h with
       | Some d =>
           if truthy (PDict d)
           then write (set_hints (Some (<["question" := PStr q]> d)))
           else mret tt
       | None => mret tt
       end;;
       new_sparql ← collab (sparql_agent.generate q (default "" c) (default ∅ h));
       hist ← read sparql_history;
       write (set_sparql_history (Some (default [] hist ++ [("initial", new_sparql)])));;
       write (set_sparql (Some new_sparql)))
      (fun _ => write (set_sparql (Some ""))).

Definition all_rooms_sparql : string :=
  "PREFIX brick: <https://brickschema.org/schema/Brick#>" +:+ nl +:+
  "PREFIX bldg:  <urn:demo-building#>" +:+ nl +:+
  nl +:+
  "SELECT DISTINCT ?room" +:+ nl +:+
  "WHERE {" +:+ nl +:+
  "  ?room a brick:Room ." +:+ nl +:+
  "}" +:+ nl +:+
  "ORDER BY ?room".

Definition node_execute_sparql : M (Store E) unit :=
  trace_append "execute_sparql";;
  sp ← read sparql;
  rows ← try_except (collab (sparql_exec.execute (default "" sp)))
                    (fun _ => mret []);
  write (set_rows (Some rows));;
  write (set_have_rows (Some (match rows with [] => false | _ :: _ => true end)));;
  h ← read hints;
  let hints := default ∅ h in
  if eq_str (hints !! "question_type") "topology" then
    try_except
      (all_rooms_rows ← collab (sparql_exec.execute all_rooms_sparql);
       write (set_topology_all_rooms (Some all_rooms_rows)))
      (fun _ => write (set_topology_all_rooms (Some [])))
  else mret tt.

Definition error_sparql : string :=
  "SELECT ?error WHERE { BIND('查询失败' AS ?error) }".

(** [sparql_agent.llm_based_sparql_generation(state.get("question", ""),
    context=state.get("context", ""), hints=state.get("hints", {}))] *)
Definition level_1_query : M (Store E) string :=
  q ← read question;
  c ← read context;
  h ← read hints;
  collab (call (llm_based_sparql_generation E (default "" q) (default "" c) (default ∅ h))).

(** [state[key]] for the two keys the history entry is built from. *)
Definition getitem {A} (key : string) (f : State -> option A) : M (Store E) A :=
  v ← read f;
  match v with
  | Some a => mret a
  | None => raise (KeyError ("'" +:+ key +:+ "'"))
  end.

Definition node_route_zero_rows : M (Store E) unit :=
  trace_append "route_zero_rows";;
  r ← read retries;
  let current_retries := default 0%Z r in
  write (set_retries (Some (current_retries + 1)%Z));;
  let retry_count := (current_retries + 1)%Z in
  try_except
    ((if (retry_count =? 1)%Z then
        s ← level_1_query;
        write (set_sparql (Some s));;
        write (set_fallback_strategy (Some "level_1"))
      else if (retry_count =? 2)%Z then
        try_except
          (q ← read question;
           chunks ← collab (rag_agent.search (default "" q));
           let new_context := rag_agent.build_context chunks in
           write (set_context (Some new_context));;
           q ← read question;
           h ← read hints;
           s ← collab (call (advanced_text_to_sparql E (default "" q) new_context (default ∅ h)));
           write (set_sparql (Some s));;
           write (set_fallback_strategy (Some "level_2")))
          (fun _ =>
             s ← level_1_query;
             write (set_sparql (Some s));;
             write (set_fallback_strategy (Some "level_1_fallback")))
      else mret tt);;
     hist ← read sparql_history;
     write (set_sparql_history (Some (default [] hist)));;
     fs ← getitem "fallback_strategy" fallback_strategy;
     sp ← getitem "sparql" sparql;
     hist ← read sparql_history;
     write (set_sparql_history (Some (default [] hist ++ [(fs, sp)]))))
    (fun _ =>
       write (set_sparql (Some error_sparql));;
       write (set_fallback_strategy (Some "error"))).

(** [f"{type(e).__name__}: {e}"] *)
Definition describe (e : exn) : string := exn_type e +:+ ": " +:+ exn_msg e.

Definition node_analyze_point_in_time : M (Store E) unit :=
  trace_append "analyze_point_in_time";;
  try_except
    (r ← read rows;
     tw ← read time_window;
     a ← collab (call (analyze_point_in_time_state E r tw));
     write (set_analysis (Some a));;
     write (set_analysis_error (Some None)))
    (fun e =>
       write (set_analysis (Some []));;
       write (set_analysis_error (Some (Some (describe e))))).

(** [analysis_agent] has [analyze_state], so the [else] branch of the
    [hasattr] test is never taken. *)
Definition node_analyze : M (Store E) unit :=
  trace_append "analyze";;
  try_except
    (r ← read rows;
     tw ← read time_window;
     h ← read hints;
     a ← collab (call (analyze_state E r tw h));
     write (set_analysis (Some a));;
     write (set_analysis_error (Some None)))
    (fun e =>
       write (set_analysis (Some []));;
       write (set_analysis_error (Some (Some (describe e))))).

Definition apology : string := "抱歉，暂时无法生成答案。".

Definition node_answer : M (Store E) unit :=
  trace_append "answer";;
  try_except
    (q ← getitem_question;
     r ← read rows;
     a ← read analysis;
     h ← read hints;
     tw ← read time_window;
     all ← read topology_all_rooms;
     text ← collab (call (compose E q (default [] r) (default [] a) (default ∅ h) tw
                            (default [] all)));
     write (set_answer (Some text)))
    (fun _ => write (set_answer (Some apology))).
End WithEnv.

(** ** Routers *)

Definition route_after_execute (state : State) : outcome string :=
  let hints := default ∅ (hints state) in
  let qtype := hints !! "question_type" in
  let time_range := default (PDict ∅) (hints !! "time_range") in
  let need := hints !! "need" in
  let need_ok := match need with Some (PList (_ :: _)) => true | _ => false end in
  if negb (default false (have_rows state)) then Ret "zero"
  else if eq_str qtype "topology" then Ret "answer"
  else
    kind ← py_get time_range "kind";
    if eq_str kind "point_in_time" then Ret "analyze_point_in_time"
    else if default false (need_stats state) || need_ok then Ret "analyze"
    else Ret "answer".

Definition route_retry_or_end (state : State) : string :=
  let max_retries := 2%Z in
  let current_retries := default 0%Z (retries state) in
  let should_retry := (current_retries <? max_retries)%Z in
  if should_retry then "retry" else "giveup".

(** ** The workflow

    [StateGraph] and its executor are the langgraph library.  Each node of
    this graph has a single successor at a time, so a run is a walk: the
    handler of the current node is applied to the state dictionary, then the
    outgoing edge (or the router of a conditional edge and its mapping) gives
    the next node, until [END].  The dictionary a handler returns is the one
    the next handler receives, with all the keys the handlers wrote.  An
    exception raised by a handler or a router ends the run and reaches the
    caller of [agent.invoke].  The executor gives up with
    [GraphRecursionError] after [recursion_limit] steps, 25 unless the caller
    changes it. *)

Inductive node :=
| n_intent | n_rag | n_normalize_time | n_generate_sparql | n_execute_sparql
| n_route_zero_rows | n_analyze | n_answer | n_analyze_point_in_time.

Inductive target := To (n : node) | END.

(** [workflow.add_node(name, handler)] *)
Definition node_name (n : node) : string :=
  match n with
  | n_intent => "intent"
  | n_rag => "rag"
  | n_normalize_time => "normalize_time"
  | n_generate_sparql => "generate_sparql"
  | n_execute_sparql => "execute_sparql"
  | n_route_zero_rows => "route_zero_rows"
  | n_analyze => "analyze"
  | n_answer => "answer"
  | n_analyze_point_in_time => "analyze_point_in_time"
  end.

(** The mapping of the conditional edges out of [execute_sparql]. *)
Definition after_execute (r : string) : option node :=
  if String.eqb r "zero" then Some n_route_zero_rows
  else if String.eqb r "analyze" then Some n_analyze
  else if String.eqb r "analyze_point_in_time" then Some n_analyze_point_in_time
  else if String.eqb r "answer" then Some n_answer
  else None.

(** The mapping of the conditional edges out of [route_zero_rows]. *)
Definition after_zero_rows (r : string) : option node :=
  if String.eqb r "retry" then Some n_generate_sparql
  else if String.eqb r "giveup" then Some n_answer
  else None.

Definition recursion_limit : nat := 25.

Definition GraphRecursionError : exn :=
  Exn "GraphRecursionError" "Recursion limit of 25 reached without hitting a stop condition.".

Section Workflow.
Context {E : Env}.

Definition handler (n : node) : M (Store E) unit :=
  match n with
  | n_intent => node_intent
  | n_rag => node_rag
  | n_normalize_time => node_normalize_time
  | n_generate_sparql => node_generate_sparql
  | n_execute_sparql => node_execute_sparql
  | n_route_zero_rows => node_route_zero_rows
  | n_analyze => node_analyze
  | n_answer => node_answer
  | n_analyze_point_in_time => node_analyze_point_in_time
  end.

Definition branch (r : string) (mapping : string -> option node) : M (Store E) target :=
  match mapping r with
  | Some n => mret (To n)
  | None => raise (KeyError ("'" +:+ r +:+ "'"))
  end.

(** [add_edge] and [add_conditional_edges] *)
Definition successor (n : node) : M (Store E) target :=
  match n with
  | n_intent => mret (To (if USE_RAG then n_rag else n_normalize_time))
  | n_rag => mret (To n_normalize_time)
  | n_normalize_time => mret (To n_generate_sparql)
  | n_generate_sparql => mret (To n_execute_sparql)
  | n_execute_sparql =>
      st ← read id;
      r ← lift_outcome (route_after_execute st);
      branch r after_execute
  | n_route_zero_rows =>
      st ← read id;
      branch (route_retry_or_end st) after_zero_rows
  | n_analyze => mret (To n_answer)
  | n_analyze_point_in_time => mret (To n_answer)
  | n_answer => mret END
  end.

Definition step (n : node) : M (Store E) target := handler n;; successor n.

Fixpoint run (limit : nat) (n : node) : M (Store E) unit :=
  match limit with
  | 0 => raise GraphRecursionError
  | S limit' =>
      t ← step n;
      match t with
      | END => mret tt
      | To n' => run limit' n'
      end
  end.

(** [workflow.set_entry_point("intent")]; [agent.invoke(state)] *)
Definition invoke : M (Store E) unit := run recursion_limit n_intent.
End Workflow.

(** The state web_app.py starts a request with: [{"question": q}]. *)
Definition request (q : string) : State :=
  mkState (Some q) None None None None None None None None None None None None None None
          None None.

End graph.

Import graph.

(** * Specifications

    A triple [{P} m {Q | X}] over the state dictionary: started in a state
    satisfying [P], the computation [m] either returns [a] in a state
    satisfying [Q a] or raises in a state satisfying [X]. *)

Definition triple {E : Env} {A} (P : State -> Prop) (m : M (Store E) A)
    (Q : A -> State -> Prop) (X : State -> Prop) : Prop :=
  forall s : Store E,
    P (state s) ->
    match m s with
    | (Ret a, s') => Q a (state s')
    | (Raise _, s') => X (state s')
    end.

(** A computation that returns from every store. *)
Definition never_raises {S A} (m : M S A) : Prop :=
  forall s, exists a s', m s = (Ret a, s').

(** The projection of the state that the escalation loop works on. *)
Definition tags (st : State) : list string := (default [] (sparql_history st)).*1.

(** [l1] is [l2] with some entries left out. *)
Fixpoint subseq (l1 l2 : list string) : bool :=
  match l1, l2 with
  | [], _ => true
  | _ :: _, [] => false
  | x :: l1', y :: l2' => if String.eqb x y then subseq l1' l2' else subseq l1 l2'
  end.


(** The two full strategy sequences of the escalation policy. *)
Definition full_level_2 : list string := ["initial"; "level_1"; "level_2"].
Definition full_level_1_fallback : list string := ["initial"; "level_1"; "level_1_fallback"].


(** The kinds [normalize_time] recognises. *)
Definition recognised_kind (k : option pyval) : bool :=
  eq_str k "relative_days" || eq_str k "last_hours" || eq_str k "absolute"
  || eq_str k "point_in_time".

(** [hints] asks for no time window: the key is missing, its value is
    falsy ([None], an empty dictionary), or it is a dictionary whose [kind]
    is none of the four. *)
Definition no_time_range (h : Hints) : Prop :=
  match h !! "time_range" with
  | None => True
  | Some v =>
      truthy v = false \/
      exists d, v = PDict d /\ recognised_kind (d !! "kind") = false
  end.

(** * A concrete environment

    A small deterministic world for evaluating the model: the world state is
    trivial, time is counted in integers, and what each collaborator does is
    chosen by a [Scenario]. *)

Record Scenario := mkScenario {
  sc_prompt : outcome (option string);   (* the prompt file *)
  sc_llm : bool;                         (* is a chat model configured? *)
  sc_reply : outcome string;             (* what the chat model answers *)
  sc_json : option Hints;                (* the dictionary decoded from the reply *)
  sc_search : outcome (list Chunk);
  sc_template : outcome string;
  sc_level_1 : outcome string;
  sc_level_2 : outcome string;
  sc_store : outcome unit;               (* loading topology.ttl *)
  sc_query : string -> outcome QRes;
  sc_stats : outcome (list Hints);
  sc_answer : outcome string
}.

Definition ascii_upper (c : ascii) : ascii :=
  let n := nat_of_ascii c in
  if (97 <=? n)%nat && (n <=? 122)%nat then ascii_of_nat (n - 32) else c.

Definition ascii_lower (c : ascii) : ascii :=
  let n := nat_of_ascii c in
  if (65 <=? n)%nat && (n <=? 90)%nat then ascii_of_nat (n + 32) else c.

Fixpoint map_string (f : ascii -> ascii) (s : string) : string :=
  match s with
  | EmptyString => EmptyString
  | String c rest => String (f c) (map_string f rest)
  end.

(** [s.split()] on ASCII white space; [cur] is the token being read, reversed. *)
Fixpoint split_ws (s : string) (cur : list ascii) : list string :=
  let flush := match cur with [] => [] | _ => [String.string_of_list_ascii (rev cur)] end in
  match s with
  | EmptyString => flush
  | String c rest =>
      if Ascii.is_space c then flush ++ split_ws rest []
      else split_ws rest (c :: cur)
  end.

Definition world_of (sc : Scenario) : Env :=
  {| W := unit; LLM := unit; Graph := unit; Instant := Z; DateTime := Z;
     read_prompt_file := fun w => (sc_prompt sc, w);
     prompt_path := fun _ => "prompt/prompt.md";
     init_chat_model := fun w => (if sc_llm sc then Some tt else None, w);
     strftime_today := fun w => ("2026年01月01日", w);
     llm_invoke := fun _ _ w => (sc_reply sc, w);
     llm_predict := fun _ _ w => (sc_reply sc, w);
     json_object := fun _ => sc_json sc;
     re_search_room := fun _ => None;
     str_lower := map_string ascii_lower;
     str_upper := map_string ascii_upper;
     str_strip := fun s => s;
     str_split := fun s => split_ws s [];
     py_repr := fun _ => "";
     faiss_search := fun _ w => (sc_search sc, w);
     template_query := fun _ _ w => (sc_template sc, w);
     llm_based_sparql_generation := fun _ _ _ w => (sc_level_1 sc, w);
     advanced_text_to_sparql := fun _ _ _ w => (sc_level_2 sc, w);
     rdflib_parse := fun w => (sc_store sc, w);
     rdflib_query := fun _ q w => (sc_query sc q, w);
     perf_counter := fun w => (0%Z, w);
     elapsed_ms := fun t0 t1 => (t1 - t0)%Z;
     datetime_now := fun w => (0%Z, w);
     start_of_day := fun d => (d - d `mod` 1440)%Z;
     plus_days := fun d n => Ret (d + 1440 * n)%Z;
     plus_hours := fun d n => Ret (d + 60 * n)%Z;
     strptime := fun _ _ => None;
     isoformat := fun d => pretty d;
     int_of_str := fun _ => None;
     analyze_state := fun _ _ _ w => (sc_stats sc, w);
     analyze_point_in_time_state := fun _ _ w => (sc_stats sc, w);
     compose := fun _ _ _ _ _ _ w => (sc_answer sc, w) |}.


Definition select_all : string := "SELECT ?s WHERE { ?s ?p ?o }".
Definition select_level_1 : string := "SELECT ?pt WHERE { ?pt ?p ?o }".
Definition select_level_2 : string := "SELECT ?room WHERE { ?room ?p ?o }".

(** No API key is configured (so the hints are the neutral record), the
    template query matches one sensor, every other collaborator works. *)
Definition sc_no_api_key : Scenario :=
  {| sc_prompt := Ret (Some "You are a building assistant.");
     sc_llm := false;
     sc_reply := Ret "";
     sc_json := None;
     sc_search := Ret [mkChunk "Room 1205 has three temperature sensors." "0.812"];
     sc_template := Ret select_all;
     sc_level_1 := Ret select_level_1;
     sc_level_2 := Ret select_level_2;
     sc_store := Ret tt;
     sc_query := fun _ => Ret (mkQRes ["s"] [["urn:demo-building#TS_1205_1"]]);
     sc_stats := Ret [];
     sc_answer := Ret "Room 1205 has one sensor." |}.

(** The store holds nothing that any query matches. *)
Definition sc_empty_store : Scenario :=
  {| sc_prompt := sc_prompt sc_no_api_key;
     sc_llm := false;
     sc_reply := Ret "";
     sc_json := None;
     sc_search := sc_search sc_no_api_key;
     sc_template := Ret select_all;
     sc_level_1 := Ret select_level_1;
     sc_level_2 := Ret select_level_2;
     sc_store := Ret tt;
     sc_query := fun _ => Ret (mkQRes ["s"] []);
     sc_stats := Ret [];
     sc_answer := Ret "No data found." |}.


(** Nothing matches the template query, one point matches the level-1
    query. *)
Definition sc_rows_after_retry : Scenario :=
  {| sc_prompt := sc_prompt sc_no_api_key;
     sc_llm := false;
     sc_reply := Ret "";
     sc_json := None;
     sc_search := sc_search sc_no_api_key;
     sc_template := Ret select_all;
     sc_level_1 := Ret select_level_1;
     sc_level_2 := Ret select_level_2;
     sc_store := Ret tt;
     sc_query := fun q =>
       if String.eqb q select_level_1
       then Ret (mkQRes ["pt"] [["urn:demo-building#Temp_1205"]])
       else Ret (mkQRes ["s"] []);
     sc_stats := Ret [];
     sc_answer := Ret "Room 1205 has one sensor." |}.

(** The prompt file exists but cannot be read. *)
Definition sc_prompt_unreadable : Scenario :=
  {| sc_prompt := Raise (Exn "UnicodeDecodeError" "invalid start byte");
     sc_llm := false;
     sc_reply := Ret "";
     sc_json := None;
     sc_search := sc_search sc_no_api_key;
     sc_template := Ret select_all;
     sc_level_1 := Ret select_level_1;
     sc_level_2 := Ret select_level_2;
     sc_store := Ret tt;
     sc_query := sc_query sc_no_api_key;
     sc_stats := Ret [];
     sc_answer := Ret "Room 1205 has one sensor." |}.

(** data/topology.ttl is missing. *)
Definition sc_no_topology : Scenario :=
  {| sc_prompt := sc_prompt sc_no_api_key;
     sc_llm := false;
     sc_reply := Ret "";
     sc_json := None;
     sc_search := sc_search sc_no_api_key;
     sc_template := Ret select_all;
     sc_level_1 := Ret select_level_1;
     sc_level_2 := Ret select_level_2;
     sc_store := Raise (Exn "FileNotFoundError" "No such file or directory: 'data/topology.ttl'");
     sc_query := sc_query sc_no_api_key;
     sc_stats := Ret [];
     sc_answer := Ret "" |}.

(** A fresh interpreter: no cache is filled. *)
Definition fresh (sc : Scenario) : Proc (world_of sc) :=
  @mkProc (world_of sc) None None None tt.

(** The interpreter once topology.ttl has been loaded. *)
Definition loaded (sc : Scenario) : Proc (world_of sc) :=
  @mkProc (world_of sc) None None (Some tt) tt.

(** A request as web_app.py submits it. *)
Definition submit (sc : Scenario) (q : string) : Store (world_of sc) :=
  mkStore (request q) (fresh sc).

(** The hints llm_parse returns when no chat model is configured. *)
Definition neutral_hints : Hints :=
  list_to_map
    [ ("question_type", PStr "other"); ("topology_intent", PNone);
      ("need_stats", PBool false);
      ("need", PNone); ("room", PNone); ("metric", PNone);
      ("time_range", PNone);
      ("uncertain", PBool true); ("ambiguities", PList []);
      ("_source", PStr "no-llm");
      ("_prompt", PStr "prompt/prompt.md") ].

(** [m] ends, however it ends, in a state with the same [π]. *)
Definition keeps {E : Env} {X A} (π : State -> X) (m : M (Store E) A) : Prop :=
  forall s, π (state (m s).2) = π (state s).

(** The fields the escalation loop works on. *)
Definition core (st : State) : option Z * option (list (string * string)) * option string :=
  (retries st, sparql_history st, sparql st).

(** Number of times execute-query has run, read off the trace. *)
Fixpoint count (name : string) (l : list string) : nat :=
  match l with
  | [] => 0
  | x :: rest => (if String.eqb x name then 1 else 0) + count name rest
  end.

Definition execs (st : State) : nat := count "execute_sparql" (default [] (trace st)).

(** Where the query of an escalation attempt comes from: the
    context-augmented generator for level_2, the LLM-only generator for
    level_1 and level_1_fallback. *)
Definition produced_by (E : Env) (tag q : string) : Prop :=
  if String.eqb tag "level_2"
  then exists a b c w w', advanced_text_to_sparql E a b c w = (Ret q, w')
  else exists a b c w w', llm_based_sparql_generation E a b c w = (Ret q, w').

(** How many steps are left at most, by node and retry round. *)
Definition rank (n : node) (st : State) : nat :=
  let first := (default 0%Z (retries st) =? 0)%Z in
  match n with
  | n_intent => 10
  | n_rag => 9
  | n_normalize_time => 8
  | n_generate_sparql => if first then 7 else 4
  | n_execute_sparql => if first then 6 else 3
  | n_route_zero_rows => if first then 5 else 2
  | n_analyze | n_analyze_point_in_time => 2
  | n_answer => 1
  end.

(** The history is one of the two full sequences with entries left out. *)
Definition history_ok (st : State) : Prop :=
  subseq (tags st) full_level_2 = true \/ subseq (tags st) full_level_1_fallback = true.

(** The level-1 generator never returns the empty string. *)
Definition level_1_nonempty (E : Env) : Prop :=
  forall a b c w q w', llm_based_sparql_generation E a b c w = (Ret q, w') -> q <> "".

(** The retry counter and the number of executions when the walk is about
    to enter node [n]. *)
Definition counters (n : node) (st : State) : Prop :=
  match n with
  | n_intent => execs st = 0
  | n_rag | n_normalize_time => retries st = Some 0%Z /\ execs st = 0
  | n_generate_sparql | n_execute_sparql =>
      (retries st = Some 0%Z /\ execs st = 0) \/ (retries st = Some 1%Z /\ execs st = 1)
  | n_route_zero_rows =>
      (retries st = Some 0%Z /\ execs st = 1) \/ (retries st = Some 1%Z /\ execs st = 2)
  | n_analyze | n_analyze_point_in_time | n_answer => 1 <= execs st <= 2
  end.

(** The query and its history when the walk is about to enter node [n]. *)
Definition query_facts (n : node) (st : State) : Prop :=
  match n with
  | n_intent | n_rag | n_normalize_time =>
      tags st = [] /\ nonempty (sparql st) = false
  | n_generate_sparql =>
      (retries st = Some 0%Z -> tags st = [] /\ nonempty (sparql st) = false) /\
      (retries st = Some 1%Z ->
       subseq (tags st) ["initial"; "level_1"] = true /\ nonempty (sparql st) = true)
  | n_execute_sparql | n_route_zero_rows =>
      (retries st = Some 0%Z -> subseq (tags st) ["initial"] = true) /\
      (retries st = Some 1%Z -> subseq (tags st) ["initial"; "level_1"] = true)
  | n_analyze | n_analyze_point_in_time | n_answer => history_ok st
  end.

(** What holds of the state when the walk is about to enter node [n]; the
    facts about the history depend on the level-1 generator. *)
Definition at_node (E : Env) (n : node) (st : State) : Prop :=
  counters n st /\ (level_1_nonempty E -> query_facts n st).

(** How a run can end: at the answer step, or in the router after
    execute-query with an AttributeError; never with more than two
    executions. *)
Definition run_ends (E : Env) (r : outcome unit) (st : State) : Prop :=
  execs st <= 2 /\
  (level_1_nonempty E -> history_ok st) /\
  match r with
  | Ret _ => last (default [] (trace st)) = Some "answer" /\ is_Some (answer st)
  | Raise e =>
      exn_type e = "AttributeError" /\
      last (default [] (trace st)) = Some "execute_sparql" /\
      have_rows st = Some true
  end.

(** The five steps every request starts with, up to and including the
    first execution of a query. *)
Definition first_execution {E : Env} : M (Store E) unit :=
  node_intent;; node_rag;; node_normalize_time;; node_generate_sparql;; node_execute_sparql.

(** The RDF store is loaded but refuses every query. *)
Definition sc_query_refused : Scenario :=
  {| sc_prompt := sc_prompt sc_no_api_key;
     sc_llm := false;
     sc_reply := Ret "";
     sc_json := None;
     sc_search := sc_search sc_no_api_key;
     sc_template := Ret select_all;
     sc_level_1 := Ret select_level_1;
     sc_level_2 := Ret select_level_2;
     sc_store := Ret tt;
     sc_query := fun _ => Raise (Exn "ParseException" "Expected SelectQuery");
     sc_stats := Ret [];
     sc_answer := Ret "No data found." |}.

(** A state with rows, a topology question and statistics requested. *)
Definition topology_with_rows : State :=
  set_have_rows (Some true)
    (set_need_stats (Some true)
       (set_hints (Some {[ "question_type" := PStr "topology";
                           "need" := PList [PStr "avg"] ]})
          (request "how many rooms?"))).

(** The record [normalize_time] returns from its [except] branch. *)
Definition time_failure (msg : string) : TimeWindow :=
  mkTimeWindow None None "（时间解析失败）" false (Some ("时间解析失败: " +:+ msg)).

(** Hints whose only entry is the given time range. *)
Definition with_time_range (d : gmap string pyval) : Hints :=
  {[ "time_range" := PDict d ]}.

(** The shape of the hints every return of [llm_parse] has. *)
Definition metric_allow : list string := ["temp"; "rh"; "lux"; "co2"; "pm25"].

Definition allowed_need (v : pyval) : Prop :=
  exists n, v = PStr n /\ n ∈ rag_agent.ALLOWED_NEEDS.

Definition well_formed_hints (h : Hints) : Prop :=
  (exists q, h !! "question_type" = Some (PStr q) /\ q ∈ rag_agent.ALLOWED_QTYPE) /\
  (forall s, h !! "topology_intent" = Some (PStr s) -> s ∈ rag_agent.ALLOWED_TOPO_INTENT) /\
  (exists b, h !! "need_stats" = Some (PBool b) /\
             (truthy_opt (h !! "need") = true -> b = true)) /\
  (h !! "need" = Some PNone \/
   exists l, h !! "need" = Some (PList l) /\ Forall allowed_need l) /\
  (h !! "metric" = Some PNone \/
   exists m, h !! "metric" = Some (PStr m) /\ m ∈ metric_allow) /\
  (h !! "time_range" = Some PNone \/
   exists d, h !! "time_range" = Some (PDict d) /\ is_Some (d !! "kind")) /\
  (exists b, h !! "uncertain" = Some (PBool b)) /\
  (exists l, h !! "ambiguities" = Some (PList l)) /\
  (exists s, h !! "_source" = Some (PStr s)).

(** A chat model is configured and replies with a JSON object. *)
Definition sc_model_replies : Scenario :=
  {| sc_prompt := sc_prompt sc_no_api_key;
     sc_llm := true;
     sc_reply := Ret "{...}";
     sc_json := Some {[ "question_type" := PStr "TimeSeries";
                        "need" := PList [PStr "avg"; PStr "median"; PInt 3];
                        "metric" := PStr "noise";
                        "time_range" := PStr "yesterday" ]};
     sc_search := sc_search sc_no_api_key;
     sc_template := Ret select_all;
     sc_level_1 := Ret select_level_1;
     sc_level_2 := Ret select_level_2;
     sc_store := Ret tt;
     sc_query := sc_query sc_no_api_key;
     sc_stats := Ret [];
     sc_answer := Ret "Room 1205 has one sensor." |}.

(** Number of occurrences of a character in a string and in a stack. *)
Fixpoint count_char (c : ascii) (q : string) : nat :=
  match q with
  | EmptyString => 0
  | String ch rest => (if Ascii.eqb ch c then 1 else 0) + count_char c rest
  end.

Fixpoint count_stack (c : ascii) (stack : list ascii) : nat :=
  match stack with
  | [] => 0
  | ch :: rest => (if Ascii.eqb ch c then 1 else 0) + count_stack c rest
  end.

Definition opener (c : ascii) : bool :=
  Ascii.eqb c "(" || Ascii.eqb c "{" || Ascii.eqb c "[".

(** * Rules for the monad *)

Section Rules.
Context {S : Type}.

Lemma never_raises_ret {A} (a : A) : never_raises (mret a : M S A).
Proof. intros s. by exists a, s. Qed.

Lemma never_raises_bind {A B} (m : M S A) (k : A -> M S B) :
  never_raises m -> (forall a, never_raises (k a)) -> never_raises (m ≫= k).
Proof.
  intros Hm Hk s. destruct (Hm s) as (a & s1 & Hs).
  destruct (Hk a s1) as (b & s2 & Hs2).
  exists b, s2. unfold mbind, M_bind. by rewrite Hs.
Qed.

Lemma never_raises_try {A} (body : M S A) (h : exn -> M S A) :
  (forall e, never_raises (h e)) -> never_raises (try_except body h).
Proof.
  intros Hh s. unfold try_except.
  destruct (body s) as [[a|e] s1]; [by exists a, s1|]. apply Hh.
Qed.

Lemma never_raises_gets {A} (f : S -> A) : never_raises (gets f).
Proof. intros s. by exists (f s), s. Qed.

Lemma never_raises_modify (f : S -> S) : never_raises (modify f).
Proof. intros s. by exists tt, (f s). Qed.

Lemma never_raises_zoom {S' A} (get : S -> S') (set : S' -> S -> S) (m : M S' A) :
  never_raises m -> never_raises (zoom get set m).
Proof.
  intros Hm s. destruct (Hm (get s)) as (a & s1 & Hs).
  exists a, (set s1 s). unfold zoom. by rewrite Hs.
Qed.
End Rules.

Section StoreRules.
Context {E : Env}.

Lemma never_raises_ask {A} (f : W E -> A * W E) : never_raises (ask f).
Proof.
  intros p. unfold ask. destruct (f (world p)) as [a w]. by exists a, (set_world w p).
Qed.

Lemma never_raises_read {A} (f : State -> A) : never_raises (read (E:=E) f).
Proof. apply never_raises_gets. Qed.

Lemma never_raises_write (f : State -> State) : never_raises (write (E:=E) f).
Proof. apply never_raises_modify. Qed.

Lemma never_raises_collab {A} (m : M (Proc E) A) :
  never_raises m -> never_raises (collab m).
Proof. apply never_raises_zoom. Qed.

Lemma never_raises_trace_append name : never_raises (trace_append (E:=E) name).
Proof. apply never_raises_write. Qed.

Lemma triple_bind {A B} (m : M (Store E) A) (k : A -> M (Store E) B) P R Q X :
  triple P m R X -> (forall a, triple (R a) (k a) Q X) -> triple P (m ≫= k) Q X.
Proof.
  intros Hm Hk s Hs. specialize (Hm s Hs). unfold mbind, M_bind.
  destruct (m s) as [[a|e] s1]; [|done]. by apply Hk.
Qed.

Lemma triple_write (f : State -> State) (P : State -> Prop) Q X :
  (forall st, P st -> Q tt (f st)) -> triple (E:=E) P (write f) Q X.
Proof. intros H s Hs. by apply H. Qed.

End StoreRules.

(** * Failure isolation of the step handlers *)

Ltac safe_step :=
  first
    [ apply never_raises_bind; [|intros]
    | apply never_raises_try; intros
    | apply never_raises_ret
    | apply never_raises_read
    | apply never_raises_write
    | apply never_raises_trace_append
    | apply never_raises_ask
    | apply never_raises_gets
    | apply never_raises_modify
    | apply never_raises_collab
    | progress cbv zeta
    | match goal with
      | |- never_raises (if ?b then _ else _) => destruct b
      | |- never_raises (match ?x with _ => _ end) => destruct x
      end ].

Ltac safe := repeat safe_step.

Section HandlersReturn.
Context {E : Env}.

Lemma normalize_time_never_raises (h : Hints) :
  never_raises (normalize_time_agent.normalize_time (E:=E) h).
Proof. unfold normalize_time_agent.normalize_time, normalize_time_agent._now_local. safe. Qed.

Lemma node_intent_never_raises : never_raises (node_intent (E:=E)).
Proof. unfold node_intent. safe. Qed.

Lemma node_rag_never_raises : never_raises (node_rag (E:=E)).
Proof. unfold node_rag. safe. Qed.

Lemma node_normalize_time_never_raises : never_raises (node_normalize_time (E:=E)).
Proof.
  unfold node_normalize_time, normalize_time_agent.node_normalize_time.
  safe.
Qed.

Lemma node_generate_sparql_never_raises : never_raises (node_generate_sparql (E:=E)).
Proof. unfold node_generate_sparql. safe. Qed.

Lemma node_execute_sparql_never_raises : never_raises (node_execute_sparql (E:=E)).
Proof. unfold node_execute_sparql. safe. Qed.

Lemma node_route_zero_rows_never_raises : never_raises (node_route_zero_rows (E:=E)).
Proof. unfold node_route_zero_rows. safe. Qed.

Lemma node_analyze_never_raises : never_raises (node_analyze (E:=E)).
Proof. unfold node_analyze. safe. Qed.

Lemma node_analyze_point_in_time_never_raises :
  never_raises (node_analyze_point_in_time (E:=E)).
Proof. unfold node_analyze_point_in_time. safe. Qed.

Lemma node_answer_never_raises : never_raises (node_answer (E:=E)).
Proof. unfold node_answer. safe. Qed.

(** Every step handler returns a state, whatever its collaborators do. *)
Lemma handlers_never_raise (n : node) : never_raises (handler (E:=E) n).
Proof.
  destruct n; simpl.
  - apply node_intent_never_raises.
  - apply node_rag_never_raises.
  - apply node_normalize_time_never_raises.
  - apply node_generate_sparql_never_raises.
  - apply node_execute_sparql_never_raises.
  - apply node_route_zero_rows_never_raises.
  - apply node_analyze_never_raises.
  - apply node_answer_never_raises.
  - apply node_analyze_point_in_time_never_raises.
Qed.
End HandlersReturn.

Section TripleFacts.
Context {E : Env}.

Lemma never_raises_triple {A} (m : M (Store E) A) (P : State -> Prop) :
  never_raises m -> triple P m (fun _ _ => True) (fun _ => False).
Proof. intros Hm s _. destruct (Hm s) as (a & s' & ->). done. Qed.

Lemma triple_returns {A} (m : M (Store E) A) (Q : A -> State -> Prop) (s : Store E) :
  triple (fun _ => True) m Q (fun _ => False) ->
  exists a s', m s = (Ret a, s') /\ Q a (state s').
Proof.
  intros Hm. specialize (Hm s I). destruct (m s) as [[a|e] s']; [|done].
  by exists a, s'.
Qed.
(** The intent step always returns, with both counters reset. *)
Lemma node_intent_sets_counters (s : Store E) :
  exists s', node_intent s = (Ret tt, s') /\
             max_retries (state s') = Some 1%Z /\ retries (state s') = Some 0%Z.
Proof.
  destruct (triple_returns (node_intent (E:=E))
              (fun _ st => max_retries st = Some 1%Z /\ retries st = Some 0%Z) s)
    as ([] & s' & Hs & Hq).
  - unfold node_intent.
    eapply triple_bind; [apply never_raises_triple, never_raises_trace_append|].
    intros ?. eapply triple_bind.
    { apply never_raises_triple. safe. }
    intros ?. apply triple_bind with (R := fun _ st => retries st = Some 0%Z);
      [apply triple_write|intros ?; apply triple_write].
    + by intros st _.
    + by intros st Hst.
  - by exists s'.
Qed.
End TripleFacts.

(** * The routers *)

(** C4: route_retry_or_end answers retry exactly when the retries counter
    (0 when the key is missing) is below the constant 2 and giveup
    otherwise; neither router reads max_retries, so overwriting that field
    changes no routing decision; the intent step always returns and leaves
    max_retries = 1 and retries = 0. *)
Theorem route_retry_or_end_hardcoded_bound :
  (forall st,
     (route_retry_or_end st = "retry" <-> (default 0 (retries st) < 2)%Z) /\
     (route_retry_or_end st = "giveup" <-> ~ (default 0 (retries st) < 2)%Z)) /\
  (forall st m, route_retry_or_end (set_max_retries m st) = route_retry_or_end st) /\
  (forall st m, route_after_execute (set_max_retries m st) = route_after_execute st) /\
  (forall (E : Env) (s : Store E),
     exists s', node_intent s = (Ret tt, s') /\
                max_retries (state s') = Some 1%Z /\ retries (state s') = Some 0%Z).
Proof.
  repeat split.
  - unfold route_retry_or_end. destruct (Z.ltb_spec (default 0%Z (retries st)) 2); [done|discriminate].
  - unfold route_retry_or_end. destruct (Z.ltb_spec (default 0%Z (retries st)) 2); [done|lia].
  - unfold route_retry_or_end. destruct (Z.ltb_spec (default 0%Z (retries st)) 2); [discriminate|lia].
  - unfold route_retry_or_end. destruct (Z.ltb_spec (default 0%Z (retries st)) 2); [done|done].
  - intros E s. apply node_intent_sets_counters.
Qed.

(** With a time range that is a dictionary, or with none recorded at all,
    route_after_execute follows its table. *)
Lemma route_after_execute_table (st : State) :
  let h := default ∅ (hints st) in
  (forall d, h !! "time_range" = Some d -> exists m, d = PDict m) ->
  let kind := match h !! "time_range" with
              | Some (PDict m) => m !! "kind"
              | _ => None
              end in
  let need_ok := match h !! "need" with Some (PList (_ :: _)) => true | _ => false end in
  route_after_execute st =
    Ret (if negb (default false (have_rows st)) then "zero"
         else if eq_str (h !! "question_type") "topology" then "answer"
         else if eq_str kind "point_in_time" then "analyze_point_in_time"
         else if default false (need_stats st) || need_ok then "analyze"
         else "answer").
Proof.
  intros h Hd kind need_ok. unfold route_after_execute. fold h.
  destruct (negb (default false (have_rows st))); [done|].
  destruct (eq_str (h !! "question_type") "topology"); [done|].
  subst kind. destruct (h !! "time_range") as [d|] eqn:Htr; simpl.
  - destruct (Hd d eq_refl) as [m ->]. simpl.
    destruct (eq_str (m !! "kind") "point_in_time"); [done|].
    fold need_ok. by destruct (default false (need_stats st) || need_ok).
  - rewrite lookup_empty. simpl.
    fold need_ok. by destruct (default false (need_stats st) || need_ok).
Qed.

(** C3: the state the router receives when no chat model is configured and
    the template query matches a sensor has rows, question_type "other" and
    time_range None (the intent parser stores None when the question names
    no time).  The router gets past its first two tests, reaches
    [time_range.get("kind")] and raises AttributeError instead of answering
    analyze or answer. *)
Theorem route_after_execute_time_range_none :
  exists st h,
    st = state (first_execution (submit sc_no_api_key "temperature in room 1205?")).2 /\
    hints st = Some h /\
    have_rows st = Some true /\
    h !! "question_type" = Some (PStr "other") /\
    h !! "time_range" = Some PNone /\
    route_after_execute st = Raise (AttributeError "'NoneType' object has no attribute 'get'").
Proof.
  eexists _, _. split; [reflexivity|].
  split; [vm_compute; reflexivity|].
  repeat split; vm_compute; reflexivity.
Qed.

(** * build-query *)

(** C6: when sparql is already a non-empty string, build-query only appends
    its name to the trace: sparql and sparql_history are as before and no
    collaborator is called (the process is untouched). *)
Theorem build_query_skips_when_sparql_set (E : Env) (s : Store E) (q : string) :
  sparql (state s) = Some q -> q <> "" ->
  exists st',
    node_generate_sparql s = (Ret tt, mkStore st' (proc s)) /\
    st' = set_trace (Some (default [] (trace (state s)) ++ ["generate_sparql"])) (state s) /\
    sparql st' = Some q /\
    sparql_history st' = sparql_history (state s).
Proof.
  intros Hq Hne. eexists. split; [|split; [reflexivity|]].
  - unfold node_generate_sparql, trace_append, write, read, modify, gets, mbind, M_bind.
    simpl. rewrite Hq. simpl.
    destruct (String.eqb_spec q ""); [done|]. reflexivity.
  - simpl. by rewrite Hq.
Qed.

Lemma build_query_skips_when_sparql_set_witness :
  exists st',
    node_generate_sparql
      (mkStore (set_sparql (Some select_level_1) (request "q")) (fresh sc_empty_store))
    = (Ret tt, mkStore st' (fresh sc_empty_store)) /\
    st' = set_trace (Some ["generate_sparql"]) (set_sparql (Some select_level_1) (request "q")) /\
    sparql st' = Some select_level_1 /\
    sparql_history st' = None.
Proof.
  apply (build_query_skips_when_sparql_set (world_of sc_empty_store)
           (mkStore (set_sparql (Some select_level_1) (request "q")) (fresh sc_empty_store))
           select_level_1).
  - reflexivity.
  - discriminate.
Defined.

(** * Time-window normalization *)

(** C9: for hints without a time range (key missing, value None or empty,
    or a dictionary whose kind is none of the four recognised ones)
    normalize_time returns start_local = None, end_local = None, ok = True,
    no error, and the source's label for "no time constraint",
    "（无时间限定）"; no window is made up. *)
Theorem normalize_time_without_time_range (E : Env) (h : Hints) (p : Proc E) :
  no_time_range h ->
  exists p',
    normalize_time_agent.normalize_time h p =
      (Ret (mkTimeWindow None None "（无时间限定）" true None), p').
Proof.
  unfold no_time_range, normalize_time_agent.normalize_time,
    normalize_time_agent._now_local, ask.
  intros Hh. unfold mbind at 1, M_bind at 1.
  destruct (datetime_now E (world p)) as [now w]. eexists.
  destruct (h !! "time_range") as [v|].
  - destruct Hh as [Hf|(d & -> & Hk)].
    + rewrite Hf. reflexivity.
    + unfold recognised_kind in Hk.
      apply orb_false_iff in Hk as [Hk H4]. apply orb_false_iff in Hk as [Hk H3].
      apply orb_false_iff in Hk as [H1 H2].
      destruct (truthy (PDict d));
        unfold try_except, lift_outcome, normalize_time_agent.normalize_time_body; simpl;
        rewrite ?lookup_empty; simpl; rewrite ?H1, ?H2, ?H3, ?H4; reflexivity.
  - reflexivity.
Qed.

Lemma normalize_time_without_time_range_witness :
  exists p',
    normalize_time_agent.normalize_time neutral_hints (fresh sc_no_api_key) =
      (Ret (mkTimeWindow None None "（无时间限定）" true None), p').
Proof.
  apply (normalize_time_without_time_range (world_of sc_no_api_key) neutral_hints).
  unfold no_time_range. vm_compute. left. reflexivity.
Defined.

(** * The query executor *)

Section Execute.
Context {E : Env}.

(** A query that fails the syntax check gives the empty list, and the
    store is not even loaded. *)
Lemma execute_rejects_bad_syntax (query : string) (p : Proc E) :
  sparql_exec._basic_syntax_check (E:=E) query = false ->
  sparql_exec.execute query p = (Ret [], p).
Proof. intros H. unfold sparql_exec.execute. by rewrite H. Qed.

(** Once the store is loaded, a query that rdflib refuses gives the empty
    list. *)
Lemma execute_catches_query_error (query : string) (p : Proc E) g t0 w1 e w2 :
  sparql_exec._basic_syntax_check (E:=E) query = true ->
  _RDF p = Some g ->
  perf_counter E (world p) = (t0, w1) ->
  rdflib_query E g query w1 = (Raise e, w2) ->
  sparql_exec.execute query p = (Ret [], set_world w2 p).
Proof.
  intros Hc Hg Ht Hq. unfold sparql_exec.execute. rewrite Hc. simpl.
  unfold sparql_exec._get_graph, mbind, M_bind, gets, ask, try_except, call, zoom.
  simpl. rewrite Hg. simpl. rewrite Ht. simpl. rewrite Hq. reflexivity.
Qed.

(** Loading the store happens outside the [try]: when it fails, so does
    [execute]. *)
Lemma execute_propagates_load_error (query : string) (p : Proc E) e w1 :
  sparql_exec._basic_syntax_check (E:=E) query = true ->
  _RDF p = None ->
  rdflib_parse E (world p) = (Raise e, w1) ->
  sparql_exec.execute query p = (Raise e, set_world w1 p).
Proof.
  intros Hc Hg Hl. unfold sparql_exec.execute. rewrite Hc. simpl.
  unfold sparql_exec._get_graph, mbind, M_bind, gets, call, zoom.
  simpl. rewrite Hg. simpl. rewrite Hl. reflexivity.
Qed.




End Execute.

(** C8: with data/topology.ttl missing, a well-formed query makes execute
    raise FileNotFoundError instead of returning the empty list: the store
    is loaded before the try block is entered. *)
Theorem execute_raises_when_store_cannot_load :
  sparql_exec.execute select_all (fresh sc_no_topology) =
    (Raise (Exn "FileNotFoundError" "No such file or directory: 'data/topology.ttl'"),
     fresh sc_no_topology).
Proof. vm_compute. reflexivity. Qed.



(** * Intent parsing *)

Section Intent.
Context {E : Env}.




End Intent.




(** * Frame rules: what a computation leaves alone *)

Section Keeps.
Context {E : Env} {X : Type} (π : State -> X).

Lemma keeps_ret {A} (a : A) : keeps (E:=E) π (mret a).
Proof. by intros s. Qed.

Lemma keeps_raise {A} e : keeps π (raise e : M (Store E) A).
Proof. by intros s. Qed.

Lemma keeps_bind {A B} (m : M (Store E) A) (k : A -> M (Store E) B) :
  keeps π m -> (forall a, keeps π (k a)) -> keeps π (m ≫= k).
Proof.
  intros Hm Hk s. specialize (Hm s). unfold mbind, M_bind.
  destruct (m s) as [[a|e] s1]; simpl in *; [|done].
  by rewrite Hk.
Qed.

Lemma keeps_try {A} (body : M (Store E) A) (h : exn -> M (Store E) A) :
  keeps π body -> (forall e, keeps π (h e)) -> keeps π (try_except body h).
Proof.
  intros Hb Hh s. specialize (Hb s). unfold try_except.
  destruct (body s) as [[a|e] s1]; simpl in *; [done|].
  by rewrite Hh.
Qed.

Lemma keeps_read {A} (f : State -> A) : keeps (E:=E) π (read f).
Proof. by intros s. Qed.

Lemma keeps_write (f : State -> State) :
  (forall st, π (f st) = π st) -> keeps (E:=E) π (write f).
Proof. intros H s. apply H. Qed.

Lemma keeps_collab {A} (m : M (Proc E) A) : keeps π (collab m).
Proof. intros s. unfold collab, zoom. by destruct (m (proc s)) as [r p]. Qed.

Lemma keeps_lift {A} (o : outcome A) : keeps (E:=E) π (lift_outcome o).
Proof. by intros s. Qed.
End Keeps.

Ltac keeps_step :=
  first
    [ apply keeps_bind; [|intros]
    | apply keeps_try; [|intros]
    | apply keeps_ret
    | apply keeps_raise
    | apply keeps_read
    | apply keeps_collab
    | apply keeps_lift
    | apply keeps_write; intros; reflexivity
    | progress cbv zeta
    | match goal with
      | |- keeps _ (if ?b then _ else _) => destruct b
      | |- keeps _ (match ?x with _ => _ end) => destruct x
      end ].

Ltac frame := repeat keeps_step.

Section HandlerFrames.
Context {E : Env}.

Lemma node_rag_core : keeps (E:=E) core node_rag.
Proof. unfold node_rag, trace_append, getitem_question. frame. Qed.

Lemma node_normalize_time_core : keeps (E:=E) core node_normalize_time.
Proof. unfold node_normalize_time, normalize_time_agent.node_normalize_time. frame. Qed.

Lemma node_execute_sparql_core : keeps (E:=E) core node_execute_sparql.
Proof. unfold node_execute_sparql, trace_append. frame. Qed.

Lemma node_analyze_core : keeps (E:=E) core node_analyze.
Proof. unfold node_analyze, trace_append. frame. Qed.

Lemma node_analyze_point_in_time_core : keeps (E:=E) core node_analyze_point_in_time.
Proof. unfold node_analyze_point_in_time, trace_append. frame. Qed.

Lemma node_answer_core : keeps (E:=E) core node_answer.
Proof. unfold node_answer, trace_append, getitem_question. frame. Qed.
End HandlerFrames.

(** * What each handler does to the trace and to the escalation fields *)

Ltac exec_monad :=
  unfold trace_append, getitem_question, getitem, write, read, modify, gets,
    collab, call, zoom, try_except, lift_outcome, raise, mbind, M_bind, mret, M_ret;
  simpl.

Section HandlerEffects.
Context {E : Env}.

Lemma trace_append_then {A} (name : string) (rest : M (Store E) A) (s : Store E) :
  keeps trace rest ->
  trace (state ((trace_append name;; rest) s).2)
  = Some (default [] (trace (state s)) ++ [name]).
Proof.
  intros Hk. unfold mbind, M_bind, trace_append, write, modify. by rewrite Hk.
Qed.

Lemma handler_trace (n : node) (s : Store E) :
  trace (state (handler n s).2) = Some (default [] (trace (state s)) ++ [node_name n]).
Proof.
  destruct n; simpl.
  - apply trace_append_then. frame.
  - apply trace_append_then. unfold getitem_question. frame.
  - unfold node_normalize_time, normalize_time_agent.node_normalize_time.
    destruct (normalize_time_never_raises (E:=E) (default ∅ (hints (state s))) (proc s))
      as (tw & p1 & Htw).
    exec_monad. by rewrite Htw.
  - apply trace_append_then. unfold getitem_question. frame.
  - apply trace_append_then. frame.
  - apply trace_append_then. unfold level_1_query, getitem. frame.
  - apply trace_append_then. frame.
  - apply trace_append_then. unfold getitem_question. frame.
  - apply trace_append_then. frame.
Qed.

Lemma node_intent_query_fields :
  keeps (E:=E) (fun st => (sparql_history st, sparql st)) node_intent.
Proof. unfold node_intent, trace_append, getitem_question. frame. Qed.

Lemma node_generate_sparql_retries : keeps (E:=E) retries node_generate_sparql.
Proof. unfold node_generate_sparql, trace_append, getitem_question. frame. Qed.

(** build-query either skips, or records one "initial" entry, or (when
    the generator raises) records nothing. *)
Lemma node_generate_sparql_history (s : Store E) :
  let st := state s in
  let st' := state (node_generate_sparql s).2 in
  if nonempty (sparql st)
  then sparql_history st' = sparql_history st /\ sparql st' = sparql st
  else tags st' = tags st ++ ["initial"] \/ tags st' = tags st.
Proof.
  simpl. destruct (nonempty (sparql (state s))) eqn:Hne.
  - unfold node_generate_sparql. exec_monad. rewrite Hne. done.
  - unfold node_generate_sparql, sparql_agent.generate. exec_monad. rewrite Hne. simpl.
    destruct (question (state s)) as [q|]; simpl; [|by right].
    destruct (hints (state s)) as [d|]; simpl.
    + destruct (negb (size d =? 0)); simpl;
        match goal with
        | |- context [template_query E ?a ?b ?c] =>
            destruct (template_query E a b c) as [[new|e] w]
        end; simpl; auto;
        left; unfold tags; simpl; by rewrite fmap_app.
    + match goal with
      | |- context [template_query E ?a ?b ?c] =>
          destruct (template_query E a b c) as [[new|e] w]
      end; simpl; auto.
      left. unfold tags. simpl. by rewrite fmap_app.
Qed.

(** One escalation attempt, first or second. *)
Lemma node_route_zero_rows_attempt (s : Store E) :
  let st := state s in
  let r := default 0%Z (retries st) in
  r = 0%Z \/ r = 1%Z ->
  exists s',
    node_route_zero_rows s = (Ret tt, s') /\
    retries (state s') = Some (r + 1)%Z /\
    ((exists tag q,
        tag ∈ (if (r =? 0)%Z then ["level_1"] else ["level_2"; "level_1_fallback"]) /\
        produced_by E tag q /\
        fallback_strategy (state s') = Some tag /\
        sparql (state s') = Some q /\
        sparql_history (state s')
        = Some (default [] (sparql_history st) ++ [(tag, q)]))
     \/
     (fallback_strategy (state s') = Some "error" /\
      sparql (state s') = Some error_sparql /\
      sparql_history (state s') = sparql_history st)).
Proof.
  simpl. intros [Hr|Hr]; rewrite Hr; simpl.
  - unfold node_route_zero_rows, level_1_query. exec_monad. rewrite Hr. simpl.
    match goal with
    | |- context [llm_based_sparql_generation E ?a ?b ?c ?w] =>
        destruct (llm_based_sparql_generation E a b c w) as [[q|e] w'] eqn:Hgen
    end; simpl.
    + eexists. split; [reflexivity|]. split; [reflexivity|]. left.
      exists "level_1", q. simpl. repeat split.
      * apply list_elem_of_here.
      * unfold produced_by. simpl. eauto 10.
    + eexists. split; [reflexivity|]. split; [reflexivity|]. right. done.
  - unfold node_route_zero_rows, level_1_query, rag_agent.search. exec_monad. rewrite Hr. simpl.
    match goal with
    | |- context [faiss_search E ?a ?w] =>
        destruct (faiss_search E a w) as [[chunks|e] w1] eqn:Hsearch
    end; simpl.
    + match goal with
      | |- context [advanced_text_to_sparql E ?a ?b ?c ?w] =>
          destruct (advanced_text_to_sparql E a b c w) as [[q|e] w2] eqn:Hadv
      end; simpl.
      * eexists. split; [reflexivity|]. split; [reflexivity|]. left.
        exists "level_2", q. simpl. repeat split.
        -- apply list_elem_of_here.
        -- unfold produced_by. simpl. eauto 10.
      * match goal with
        | |- context [llm_based_sparql_generation E ?a ?b ?c ?w] =>
            destruct (llm_based_sparql_generation E a b c w) as [[q|e'] w3] eqn:Hgen
        end; simpl.
        -- eexists. split; [reflexivity|]. split; [reflexivity|]. left.
           exists "level_1_fallback", q. simpl. repeat split.
           ++ apply list_elem_of_further, list_elem_of_here.
           ++ unfold produced_by. simpl. eauto 10.
        -- eexists. split; [reflexivity|]. split; [reflexivity|]. right. done.
    + match goal with
      | |- context [llm_based_sparql_generation E ?a ?b ?c ?w] =>
          destruct (llm_based_sparql_generation E a b c w) as [[q|e'] w3] eqn:Hgen
      end; simpl.
      * eexists. split; [reflexivity|]. split; [reflexivity|]. left.
        exists "level_1_fallback", q. simpl. repeat split.
        -- apply list_elem_of_further, list_elem_of_here.
        -- unfold produced_by. simpl. eauto 10.
      * eexists. split; [reflexivity|]. split; [reflexivity|]. right. done.
Qed.
End HandlerEffects.

(** * The defaults the handlers write when a collaborator raises *)

Section Defaults.
Context {E : Env}.

Lemma node_rag_default (s : Store E) (q : string) e w :
  question (state s) = Some q ->
  faiss_search E q (world (proc s)) = (Raise e, w) ->
  context (state (node_rag s).2) = Some "".
Proof.
  intros Hq Hs. unfold node_rag, rag_agent.search. exec_monad.
  rewrite Hq. simpl. by rewrite Hs.
Qed.

Lemma node_generate_sparql_default (s : Store E) (q : string) e w :
  nonempty (sparql (state s)) = false ->
  question (state s) = Some q ->
  template_query E q (<["question" := PStr q]> (default ∅ (hints (state s))))
    (world (proc s)) = (Raise e, w) ->
  sparql (state (node_generate_sparql s).2) = Some "".
Proof.
  intros Hne Hq Hg. unfold node_generate_sparql, sparql_agent.generate. exec_monad.
  rewrite Hne. simpl. rewrite Hq. simpl.
  destruct (hints (state s)) as [d|]; simpl in *.
  - destruct (negb (size d =? 0)); simpl; by rewrite Hg.
  - by rewrite Hg.
Qed.

Lemma node_execute_sparql_default (s : Store E) e p :
  sparql_exec.execute (default "" (sparql (state s))) (proc s) = (Raise e, p) ->
  rows (state (node_execute_sparql s).2) = Some [] /\
  have_rows (state (node_execute_sparql s).2) = Some false.
Proof.
  intros Hx. unfold node_execute_sparql. exec_monad. rewrite Hx. simpl.
  destruct (eq_str _ "topology"); simpl; [|done].
  match goal with
  | |- context [sparql_exec.execute ?q ?p] =>
      destruct (sparql_exec.execute q p) as [[rows'|e'] p2]
  end; done.
Qed.

Lemma node_analyze_default (s : Store E) e w :
  analyze_state E (rows (state s)) (time_window (state s)) (hints (state s))
    (world (proc s)) = (Raise e, w) ->
  analysis (state (node_analyze s).2) = Some [] /\
  analysis_error (state (node_analyze s).2) = Some (Some (describe e)).
Proof. intros Ha. unfold node_analyze. exec_monad. by rewrite Ha. Qed.

Lemma node_analyze_point_in_time_default (s : Store E) e w :
  analyze_point_in_time_state E (rows (state s)) (time_window (state s))
    (world (proc s)) = (Raise e, w) ->
  analysis (state (node_analyze_point_in_time s).2) = Some [] /\
  analysis_error (state (node_analyze_point_in_time s).2) = Some (Some (describe e)).
Proof. intros Ha. unfold node_analyze_point_in_time. exec_monad. by rewrite Ha. Qed.

Lemma node_answer_default (s : Store E) (q : string) e w :
  question (state s) = Some q ->
  compose E q (default [] (rows (state s))) (default [] (analysis (state s)))
    (default ∅ (hints (state s))) (time_window (state s))
    (default [] (topology_all_rooms (state s))) (world (proc s)) = (Raise e, w) ->
  answer (state (node_answer s).2) = Some apology.
Proof.
  intros Hq Hc. unfold node_answer. exec_monad. rewrite Hq. simpl. by rewrite Hc.
Qed.
End Defaults.

(** * The walk through the graph *)

Lemma subseq_nil (l : list string) : subseq [] l = true.
Proof. by destruct l. Qed.

Lemma subseq_skip (t l : list string) (x : string) :
  subseq t l = true -> subseq t (l ++ [x]) = true.
Proof.
  revert t. induction l as [|y l IH]; intros [|a t]; simpl; try done.
  destruct (String.eqb a y); auto.
Qed.

Lemma subseq_snoc (t l : list string) (x : string) :
  subseq t l = true -> subseq (t ++ [x]) (l ++ [x]) = true.
Proof.
  revert t. induction l as [|y l IH]; intros [|a t] H; simpl in *.
  - by rewrite String.eqb_refl.
  - done.
  - destruct (String.eqb x y); [apply subseq_nil|].
    apply (IH []). apply subseq_nil.
  - destruct (String.eqb a y); [by apply IH|]. by apply (IH (a :: t)).
Qed.

Lemma count_snoc (name x : string) (l : list string) :
  count name (l ++ [x]) = count name l + (if String.eqb x name then 1 else 0).
Proof. induction l as [|y l IH]; simpl; [lia|]. rewrite IH. lia. Qed.

Lemma route_after_execute_range (st : State) :
  match route_after_execute st with
  | Ret r =>
      (r = "zero" /\ default false (have_rows st) = false) \/
      r = "answer" \/ r = "analyze" \/ r = "analyze_point_in_time"
  | Raise e => exn_type e = "AttributeError" /\ have_rows st = Some true
  end.
Proof.
  unfold route_after_execute.
  destruct (have_rows st) as [[|]|]; simpl; auto.
  destruct (eq_str _ "topology"); simpl; auto.
  destruct (default (PDict ∅) _); simpl; auto.
  destruct (eq_str _ "point_in_time"); simpl; auto.
  destruct (_ || _); simpl; auto.
Qed.

Section Walk.
Context {E : Env}.

Lemma node_answer_sets_answer (s : Store E) : is_Some (answer (state (node_answer s).2)).
Proof.
  unfold node_answer. exec_monad.
  destruct (question (state s)); simpl; [|by eexists].
  match goal with
  | |- context [compose E ?a ?b ?c ?d ?e ?f ?w] =>
      destruct (compose E a b c d e f w) as [[text|e'] w']
  end; simpl; by eexists.
Qed.

End Walk.

#[local] Arguments subseq : simpl never.
#[local] Arguments rank : simpl never.

Ltac use_core L s Hh :=
  let Hc := fresh "Hc" in
  pose proof (L s) as Hc; rewrite Hh in Hc; simpl in Hc;
  injection Hc as Hretries Hhistory Hsparql.

Ltac rank_lt := unfold rank; repeat match goal with H : retries _ = _ |- _ => rewrite H end; simpl; lia.

Section WalkSteps.
Context {E : Env}.

Lemma nonempty_Some (q : string) : q <> "" -> nonempty (Some q) = true.
Proof. intros H. simpl. by destruct (String.eqb_spec q ""). Qed.

Lemma history_ok_1 (st : State) : subseq (tags st) ["initial"] = true -> history_ok st.
Proof.
  intros H. left. apply (subseq_skip _ ["initial"; "level_1"] "level_2").
  by apply (subseq_skip _ ["initial"] "level_1").
Qed.

Lemma history_ok_2 (st : State) :
  subseq (tags st) ["initial"; "level_1"] = true -> history_ok st.
Proof. intros H. left. by apply (subseq_skip _ ["initial"; "level_1"] "level_2"). Qed.

Lemma step_spec (n : node) (s : Store E) :
  at_node E n (state s) ->
  match step n s with
  | (Ret (To n'), s') => at_node E n' (state s') /\ rank n' (state s') < rank n (state s)
  | (Ret END, s') => run_ends E (Ret tt) (state s')
  | (Raise e, s') => run_ends E (Raise e) (state s')
  end.
Proof.
  intros [Hc Hq]. unfold step. unfold mbind, M_bind.
  destruct (handlers_never_raise (E:=E) n s) as ([] & s1 & Hh). rewrite Hh.
  pose proof (handler_trace n s) as Htr. rewrite Hh in Htr. simpl in Htr.
  assert (Hex : execs (state s1)
                = execs (state s)
                  + (if String.eqb (node_name n) "execute_sparql" then 1 else 0)).
  { unfold execs. rewrite Htr. simpl. apply count_snoc. }
  assert (Hlast : last (default [] (trace (state s1))) = Some (node_name n)).
  { rewrite Htr. simpl. apply last_snoc. }
  clear Htr. unfold at_node.
  destruct n; simpl in Hh, Hex, Hlast; unfold counters, query_facts in Hc, Hq;
    simpl successor.
  - (* intent *)
    destruct (node_intent_sets_counters s) as (s' & Hs' & _ & Hr).
    rewrite Hh in Hs'. injection Hs' as <-.
    pose proof (node_intent_query_fields s) as Hf. rewrite Hh in Hf. simpl in Hf.
    injection Hf as Hhist Hsp.
    unfold USE_RAG. simpl. split; [|rank_lt]. split.
    + split; [done|lia].
    + intros HG. destruct (Hq HG) as [Ht Hs]. unfold tags in *. by rewrite Hhist, Hsp.
  - (* rag *)
    destruct Hc as (Hr & He).
    use_core (node_rag_core (E:=E)) s Hh. simpl. split; [|rank_lt]. split.
    + rewrite Hretries. split; [done|lia].
    + intros HG. destruct (Hq HG) as [Ht Hs]. unfold tags in *.
      by rewrite Hhistory, Hsparql.
  - (* normalize_time *)
    destruct Hc as (Hr & He).
    use_core (node_normalize_time_core (E:=E)) s Hh. simpl. split; [|rank_lt]. split.
    + left. rewrite Hretries. split; [done|lia].
    + intros HG. destruct (Hq HG) as [Ht Hs]. unfold tags in *.
      rewrite Hretries, Hhistory, Hsparql. split; [done|]. intros Hr1. congruence.
  - (* generate_sparql *)
    pose proof (node_generate_sparql_retries s) as Hretries. rewrite Hh in Hretries.
    simpl in Hretries.
    pose proof (node_generate_sparql_history s) as Hg. rewrite Hh in Hg. simpl in Hg.
    simpl. split; [|destruct Hc as [(Hr & _)|(Hr & _)]; rank_lt]. split.
    + rewrite Hretries, Hex. destruct Hc as [(Hr & He)|(Hr & He)]; [left|right];
        (split; [done|lia]).
    + intros HG. destruct (Hq HG) as [Hq0 Hq1]. rewrite Hretries. split; intros Hr.
      * destruct (Hq0 Hr) as [Ht Hs]. rewrite Hs in Hg.
        destruct Hg as [-> | ->]; rewrite Ht; reflexivity.
      * destruct (Hq1 Hr) as [Ht Hs]. rewrite Hs in Hg. destruct Hg as [Hhist _].
        unfold tags in *. by rewrite Hhist.
  - (* execute_sparql *)
    use_core (node_execute_sparql_core (E:=E)) s Hh.
    assert (Htags : tags (state s1) = tags (state s)) by (unfold tags; by rewrite Hhistory).
    assert (Hexecs : 1 <= execs (state s1) <= 2)
      by (destruct Hc as [(Hr & He)|(Hr & He)]; lia).
    assert (Hok : level_1_nonempty E -> history_ok (state s1)).
    { intros HG. destruct (Hq HG) as [Hq0 Hq1]. destruct Hc as [(Hr & He)|(Hr & He)].
      - apply history_ok_1. rewrite Htags. by apply Hq0.
      - apply history_ok_2. rewrite Htags. by apply Hq1. }
    exec_monad. pose proof (route_after_execute_range (state s1)) as Hroute.
    destruct (route_after_execute (state s1)) as [r|e].
    + destruct Hroute as [[-> _]|[->|[->| ->]]]; unfold branch; simpl;
        (split; [|destruct Hc as [(Hr & _)|(Hr & _)]; rank_lt]);
        try (split; [exact Hexecs|exact Hok]).
      split.
      * rewrite Hretries, Hex. destruct Hc as [(Hr & He)|(Hr & He)]; [left|right];
          (split; [done|lia]).
      * intros HG. rewrite Htags, Hretries. by apply Hq.
    + destruct Hroute as [He' Hrows]. unfold run_ends.
      split; [lia|]. split; [exact Hok|done].
  - (* route_zero_rows *)
    destruct (node_route_zero_rows_attempt s) as (s' & Hs' & Hr' & Hatt).
    { destruct Hc as [(Hr & _)|(Hr & _)]; rewrite Hr; auto. }
    rewrite Hh in Hs'. injection Hs' as <-.
    exec_monad. unfold route_retry_or_end. rewrite Hr'.
    destruct Hc as [(Hr & He)|(Hr & He)]; rewrite Hr in Hr', Hatt |- *;
      simpl in Hr', Hatt |- *.
    + (* first attempt: retry *)
      split; [|rank_lt]. split; [right; split; [done|lia]|].
      intros HG. destruct (Hq HG) as [Hq0 _]. specialize (Hq0 Hr).
      split; [intros Hr0; rewrite Hr' in Hr0; injection Hr0; lia|]. intros _.
      destruct Hatt as [(tag & q & Htag & Hprod & _ & Hsp & Hhist)|(_ & Hsp & Hhist)].
      * apply list_elem_of_singleton in Htag as ->.
        destruct Hprod as (a & b & c & w & w' & Hgen). split.
        -- unfold tags in *. rewrite Hhist. simpl. rewrite fmap_app.
           by apply (subseq_snoc _ ["initial"] "level_1").
        -- rewrite Hsp. apply nonempty_Some. eapply HG, Hgen.
      * split.
        -- unfold tags in *. rewrite Hhist.
           by apply (subseq_skip _ ["initial"] "level_1").
        -- by rewrite Hsp.
    + (* second attempt: give up *)
      split; [|rank_lt]. split; [lia|].
      intros HG. destruct (Hq HG) as [_ Hq1]. specialize (Hq1 Hr).
      destruct Hatt as [(tag & q & Htag & _ & _ & _ & Hhist)|(_ & _ & Hhist)].
      * unfold history_ok, tags in *. rewrite Hhist. simpl. rewrite fmap_app. simpl.
        apply elem_of_cons in Htag as [->|Htag].
        -- left. by apply (subseq_snoc _ ["initial"; "level_1"] "level_2").
        -- apply list_elem_of_singleton in Htag as ->.
           right. by apply (subseq_snoc _ ["initial"; "level_1"] "level_1_fallback").
      * apply history_ok_2. unfold tags in *. by rewrite Hhist.
  - (* analyze *)
    use_core (node_analyze_core (E:=E)) s Hh. simpl. split; [|rank_lt].
    split; [lia|]. intros HG. specialize (Hq HG).
    unfold history_ok, tags in *. by rewrite Hhistory.
  - (* answer *)
    use_core (node_answer_core (E:=E)) s Hh. simpl. unfold run_ends.
    split; [lia|]. split.
    + intros HG. specialize (Hq HG). unfold history_ok, tags in *. by rewrite Hhistory.
    + split; [done|].
      pose proof (node_answer_sets_answer s) as Ha. by rewrite Hh in Ha.
  - (* analyze_point_in_time *)
    use_core (node_analyze_point_in_time_core (E:=E)) s Hh. simpl. split; [|rank_lt].
    split; [lia|]. intros HG. specialize (Hq HG).
    unfold history_ok, tags in *. by rewrite Hhistory.
Qed.

(** Every walk ends within its rank, at the answer step or in the router. *)
Lemma run_spec (limit : nat) (n : node) (s : Store E) :
  at_node E n (state s) -> rank n (state s) <= limit ->
  run_ends E (run limit n s).1 (state (run limit n s).2).
Proof.
  revert n s. induction limit as [|limit IH]; intros n s Hat Hrank.
  - destruct n; unfold rank in Hrank; simpl in Hrank;
      try destruct (_ =? _)%Z; lia.
  - simpl. unfold mbind, M_bind.
    pose proof (step_spec n s Hat) as Hstep.
    destruct (step n s) as [[[n'|]|e] s1]; simpl; [|done|done].
    destruct Hstep as [Hat' Hlt]. apply IH; [done|lia].
Qed.

(** A request runs execute-query at most twice and ends either at the
    answer step, with an answer set, or with the AttributeError of
    route_after_execute right after an execution that returned rows; the
    recursion limit is never reached. *)
Lemma invoke_spec (q : string) (p : Proc E) :
  let res := invoke (mkStore (request q) p) in run_ends E res.1 (state res.2).
Proof.
  apply run_spec; [|unfold recursion_limit, rank; simpl; lia].
  split; simpl; done.
Qed.
(** The escalation loop ends: at most three executions (in fact two), and
    a run whose last execution returned no rows ends at the answer step. *)
Lemma escalation_loop_ends (q : string) (p : Proc E) :
  let res := invoke (mkStore (request q) p) in
  execs (state res.2) <= 3 /\
  (have_rows (state res.2) <> Some true ->
   res.1 = Ret tt /\
   last (default [] (trace (state res.2))) = Some "answer" /\
   is_Some (answer (state res.2))).
Proof.
  simpl. destruct (invoke_spec q p) as (Hex & _ & Hend). simpl in Hex, Hend.
  split; [lia|]. intros Hrows.
  destruct (invoke (mkStore (request q) p)).1 as [[]|e]; [done|].
  by destruct Hend as (_ & _ & ?).
Qed.
End WalkSteps.

(** * The escalation policy *)




(** * Requests that end in the router *)

(** C1: every handler returns (handlers_never_raise), yet a request can
    still end in an exception.  Without an API key the hints are the
    neutral record, whose time_range is None; the template query matches a
    row; route_after_execute then raises AttributeError, which nothing
    catches, and agent.invoke fails with no answer set. *)
Theorem request_without_time_range_crashes :
  (invoke (submit sc_no_api_key "temperature in room 1205?")).1
  = Raise (AttributeError "'NoneType' object has no attribute 'get'") /\
  answer (state (invoke (submit sc_no_api_key "temperature in room 1205?")).2) = None.
Proof. split; vm_compute; reflexivity. Qed.

(** C2: the first execution yields no rows, the level-1 query yields one,
    and the run stops in the router after the second execution: the answer
    step is never reached. *)
Theorem run_stops_before_answer_step :
  (invoke (submit sc_rows_after_retry "temperature in room 1205?")).1
  = Raise (AttributeError "'NoneType' object has no attribute 'get'") /\
  trace (state (invoke (submit sc_rows_after_retry "temperature in room 1205?")).2)
  = Some ["intent"; "rag"; "normalize_time"; "generate_sparql"; "execute_sparql";
          "route_zero_rows"; "generate_sparql"; "execute_sparql"] /\
  answer (state (invoke (submit sc_rows_after_retry "temperature in room 1205?")).2) = None.
Proof. repeat split; vm_compute; reflexivity. Qed.

(** * Further properties of the orchestrator *)

(** X1: each of the nine step handlers returns a state from every store,
    whatever its collaborators return or raise. *)
Theorem step_handlers_always_return (E : Env) (n : node) (s : Store E) :
  exists s', handler n s = (Ret tt, s').
Proof. destruct (handlers_never_raise (E:=E) n s) as ([] & s' & H). by exists s'. Qed.

(** X2: the trace is append-only: each handler leaves the trace it found
    with exactly its own node name added at the end, on every path through
    its try blocks. *)
Theorem step_handlers_append_their_name (E : Env) (n : node) (s : Store E) :
  trace (state (handler n s).2) = Some (default [] (trace (state s)) ++ [node_name n]).
Proof. apply handler_trace. Qed.

(** X3: a request never reaches the recursion limit and runs execute-query
    at most twice.  It ends either normally, with the answer step last in
    the trace and an answer set, or with an AttributeError raised by
    route_after_execute right after an execution that returned rows. *)
Theorem invoke_ends_at_answer_or_in_router (E : Env) (q : string) (p : Proc E) :
  let res := invoke (mkStore (request q) p) in
  execs (state res.2) <= 2 /\
  ((res.1 = Ret tt /\
    last (default [] (trace (state res.2))) = Some "answer" /\
    is_Some (answer (state res.2)))
   \/
   (exists e, res.1 = Raise e /\ exn_type e = "AttributeError" /\
              last (default [] (trace (state res.2))) = Some "execute_sparql" /\
              have_rows (state res.2) = Some true)).
Proof.
  simpl. destruct (invoke_spec q p) as (Hex & _ & Hend). simpl in Hex, Hend.
  split; [exact Hex|].
  destruct (invoke (mkStore (request q) p)).1 as [[]|e].
  - left. by destruct Hend.
  - right. exists e. by destruct Hend as (? & ? & ?).
Qed.

(** X4: when the hints hold a dictionary as time_range, or no time_range
    key at all, route_after_execute returns, and its answer is decided in
    this order: no rows, zero; topology, answer; kind point_in_time,
    analyze_point_in_time; need_stats or a non-empty need list, analyze;
    otherwise answer. *)
Theorem route_after_execute_follows_table (st : State) :
  (forall d, default ∅ (hints st) !! "time_range" = Some d -> exists m, d = PDict m) ->
  route_after_execute st =
    Ret (if negb (default false (have_rows st)) then "zero"
         else if eq_str (default ∅ (hints st) !! "question_type") "topology" then "answer"
         else if eq_str (match default ∅ (hints st) !! "time_range" with
                         | Some (PDict m) => m !! "kind"
                         | _ => None
                         end) "point_in_time" then "analyze_point_in_time"
         else if default false (need_stats st)
                 || match default ∅ (hints st) !! "need" with
                    | Some (PList (_ :: _)) => true
                    | _ => false
                    end then "analyze"
         else "answer").
Proof. intros H. by apply route_after_execute_table. Qed.

Lemma route_after_execute_follows_table_witness :
  route_after_execute topology_with_rows = Ret "answer".
Proof.
  apply (route_after_execute_follows_table topology_with_rows).
  intros d H. vm_compute in H. discriminate.
Defined.

(** X5: a query that fails the basic syntax check is answered with the
    empty list at once: the RDF store is not loaded, no clock is read and
    the process is left exactly as it was. *)
Theorem execute_bad_syntax_touches_nothing (E : Env) (query : string) (p : Proc E) :
  sparql_exec._basic_syntax_check (E:=E) query = false ->
  sparql_exec.execute query p = (Ret [], p).
Proof. apply execute_rejects_bad_syntax. Qed.

Lemma execute_bad_syntax_touches_nothing_witness :
  sparql_exec.execute "SELECT ?s WHERE { ?s ?p ?o " (fresh sc_no_topology)
  = (Ret [], fresh sc_no_topology).
Proof.
  apply (execute_bad_syntax_touches_nothing (world_of sc_no_topology)).
  vm_compute. reflexivity.
Defined.

(** X6: once the store is cached, an exception raised by the graph's query
    method is caught: execute returns the empty list, and the cache is
    kept. *)
Theorem execute_query_exception_gives_no_rows (E : Env) (query : string) (p : Proc E)
    g t0 w1 e w2 :
  sparql_exec._basic_syntax_check (E:=E) query = true ->
  _RDF p = Some g ->
  perf_counter E (world p) = (t0, w1) ->
  rdflib_query E g query w1 = (Raise e, w2) ->
  sparql_exec.execute query p = (Ret [], set_world w2 p) /\
  _RDF (set_world w2 p) = Some g.
Proof.
  intros Hc Hg Ht Hq. split; [by eapply execute_catches_query_error|exact Hg].
Qed.

Lemma execute_query_exception_gives_no_rows_witness :
  sparql_exec.execute select_all (loaded sc_query_refused)
  = (Ret [], loaded sc_query_refused) /\
  _RDF (loaded sc_query_refused) = Some tt.
Proof.
  apply (execute_query_exception_gives_no_rows (world_of sc_query_refused) select_all
           (loaded sc_query_refused) tt 0%Z tt
           (Exn "ParseException" "Expected SelectQuery") tt);
    vm_compute; reflexivity.
Defined.

(** X7: the store is loaded outside the try block: when no store is cached
    and parsing topology.ttl raises, execute raises the same exception for
    every query that passes the syntax check, and the cache stays empty, so
    the next call tries to load again. *)
Theorem execute_load_failure_propagates (E : Env) (query : string) (p : Proc E) e w1 :
  sparql_exec._basic_syntax_check (E:=E) query = true ->
  _RDF p = None ->
  rdflib_parse E (world p) = (Raise e, w1) ->
  sparql_exec.execute query p = (Raise e, set_world w1 p) /\
  _RDF (set_world w1 p) = None.
Proof.
  intros Hc Hg Hl. split; [by apply execute_propagates_load_error|exact Hg].
Qed.

Lemma execute_load_failure_propagates_witness :
  sparql_exec.execute select_level_1 (fresh sc_no_topology)
  = (Raise (Exn "FileNotFoundError" "No such file or directory: 'data/topology.ttl'"),
     fresh sc_no_topology) /\
  _RDF (fresh sc_no_topology) = None.
Proof.
  apply (execute_load_failure_propagates (world_of sc_no_topology) select_level_1
           (fresh sc_no_topology)
           (Exn "FileNotFoundError" "No such file or directory: 'data/topology.ttl'") tt);
    vm_compute; reflexivity.
Defined.

(** * Further properties of time-window normalization *)

Section NormalizeTime.
Context {E : Env}.

Lemma window_ok_shape (w : DateTime E * DateTime E * string) :
  let tw := normalize_time_agent.window_ok w in
  ok tw = true /\ error tw = None /\ is_Some (start_local tw) /\ is_Some (end_local tw).
Proof. destruct w as [[a b] l]. simpl. repeat split; by eexists. Qed.

Lemma normalize_time_body_shape (now : DateTime E) (tr : pyval) (tw : TimeWindow) :
  normalize_time_agent.normalize_time_body now tr = Ret tw ->
  ok tw = true /\ error tw = None /\ (is_Some (start_local tw) <-> is_Some (end_local tw)).
Proof.
  unfold normalize_time_agent.normalize_time_body.
  destruct (py_get tr "kind") as [kind|]; simpl; [|done].
  repeat match goal with
  | |- context [if ?b then _ else _] => destruct b
  | |- context [mbind _ ?o] =>
      match type of o with outcome _ => destruct o; simpl; try done end
  end;
  unfold mret, outcome_ret; intros [= <-];
  try match goal with
      | |- context [normalize_time_agent.window_ok ?w] =>
          destruct (window_ok_shape w) as (? & ? & ? & ?); by repeat split
      end.
  simpl. repeat split; by intros [? ?].
Qed.

Lemma normalize_time_run (h : Hints) (p : Proc E) now w :
  datetime_now E (world p) = (now, w) ->
  normalize_time_agent.normalize_time h p =
    (Ret match normalize_time_agent.normalize_time_body now
                 match h !! "time_range" with
                 | Some v => if truthy v then v else PDict ∅
                 | None => PDict ∅
                 end with
         | Ret tw => tw
         | Raise e => time_failure (exn_msg e)
         end, set_world w p).
Proof.
  intros Hnow.
  unfold normalize_time_agent.normalize_time, normalize_time_agent._now_local, ask.
  unfold mbind at 1, M_bind at 1. rewrite Hnow.
  unfold try_except, lift_outcome.
  by destruct (normalize_time_agent.normalize_time_body _ _).
Qed.

Lemma truthy_dict_with_key (d : gmap string pyval) k v :
  d !! k = Some v -> truthy (PDict d) = true.
Proof.
  intros H. simpl. destruct (Nat.eqb_spec (size d) 0) as [Hz|]; [|done].
  apply map_size_empty_iff in Hz. subst d. by rewrite lookup_empty in H.
Qed.
End NormalizeTime.

(** X8: normalize_time returns a record for every hints dictionary, never
    an exception, and touches none of the module caches.  In the record
    start_local and end_local are both set or both None; with ok = True the
    error is None; with ok = False both bounds are None, the label is
    "（时间解析失败）" and the error text starts with "时间解析失败: ". *)
Theorem normalize_time_result_shape (E : Env) (h : Hints) (p : Proc E) :
  exists tw p',
    normalize_time_agent.normalize_time h p = (Ret tw, p') /\
    (_prompt_cache p', _LLM p', _RDF p') = (_prompt_cache p, _LLM p, _RDF p) /\
    (is_Some (start_local tw) <-> is_Some (end_local tw)) /\
    (if ok tw then error tw = None
     else exists msg, tw = time_failure msg).
Proof.
  destruct (datetime_now E (world p)) as [now w] eqn:Hnow.
  eexists _, _. split; [by apply normalize_time_run|].
  split; [reflexivity|].
  destruct (normalize_time_agent.normalize_time_body _ _) as [tw|e] eqn:Hb.
  - destruct (normalize_time_body_shape _ _ _ Hb) as (Hok & Herr & Hse).
    split; [exact Hse|]. by rewrite Hok.
  - simpl. split; [split; by intros [? ?]|]. by eexists.
Qed.

(** X9: for kind last_hours an integer hours value below 1 is raised to 1:
    the window is the one computed for hours = 1. *)
Theorem normalize_time_last_hours_floor (E : Env) (d : gmap string pyval) (n : Z)
    (p : Proc E) :
  d !! "kind" = Some (PStr "last_hours") ->
  d !! "hours" = Some (PInt n) ->
  (n <= 1)%Z ->
  normalize_time_agent.normalize_time (with_time_range d) p =
  normalize_time_agent.normalize_time (with_time_range (<["hours" := PInt 1]> d)) p.
Proof.
  intros Hk Hh Hn.
  destruct (datetime_now E (world p)) as [now w] eqn:Hnow.
  rewrite !(normalize_time_run _ _ _ _ Hnow).
  unfold with_time_range. rewrite !lookup_singleton_eq.
  rewrite (truthy_dict_with_key d _ _ Hk).
  rewrite (truthy_dict_with_key (<["hours" := PInt 1]> d) "hours" (PInt 1))
    by apply lookup_insert_eq.
  unfold normalize_time_agent.normalize_time_body. simpl.
  rewrite lookup_insert_ne by done. rewrite Hk, Hh, lookup_insert_eq. simpl.
  by replace (Z.max 1 n) with 1%Z by lia.
Qed.

Lemma normalize_time_last_hours_floor_witness :
  normalize_time_agent.normalize_time
    (with_time_range {[ "kind" := PStr "last_hours"; "hours" := PInt (-3) ]})
    (fresh sc_no_api_key) =
  normalize_time_agent.normalize_time
    (with_time_range (<["hours" := PInt 1]>
                        {[ "kind" := PStr "last_hours"; "hours" := PInt (-3) ]}))
    (fresh sc_no_api_key).
Proof.
  apply (normalize_time_last_hours_floor (world_of sc_no_api_key)
           {[ "kind" := PStr "last_hours"; "hours" := PInt (-3) ]} (-3)).
  - vm_compute. reflexivity.
  - vm_compute. reflexivity.
  - lia.
Defined.

(** X10: for kind absolute (point_in_time) a start (at) value that
    _parse_dt cannot turn into a time gives the failure record, whose error
    text carries the message of the exception: "空字符串无法解析时间" when
    the value is missing or empty, "无法解析时间字符串: s" for a string s
    in neither format. *)
Theorem normalize_time_reports_unparsable_time (E : Env) (d : gmap string pyval)
    (v : pyval) (e : exn) (p : Proc E) :
  (d !! "kind" = Some (PStr "absolute") /\ default (PStr "") (d !! "start") = v) \/
  (d !! "kind" = Some (PStr "point_in_time") /\ default (PStr "") (d !! "at") = v) ->
  normalize_time_agent._parse_dt (E:=E) v = Raise e ->
  (exists p',
     normalize_time_agent.normalize_time (with_time_range d) p
     = (Ret (time_failure (exn_msg e)), p')) /\
  (truthy v = false -> exn_msg e = "空字符串无法解析时间") /\
  (forall s, v = PStr s -> s <> "" -> exn_msg e = "无法解析时间字符串: " +:+ s).
Proof.
  intros Hd Hp. split; [|split].
  - destruct (datetime_now E (world p)) as [now w] eqn:Hnow.
    eexists. rewrite (normalize_time_run _ _ _ _ Hnow).
    unfold with_time_range. rewrite lookup_singleton_eq.
    destruct Hd as [[Hk <-]|[Hk <-]];
      rewrite (truthy_dict_with_key d _ _ Hk);
      unfold normalize_time_agent.normalize_time_body,
        normalize_time_agent._window_absolute,
        normalize_time_agent._window_point_in_time in *;
      simpl; rewrite Hk; simpl; rewrite Hp; reflexivity.
  - intros Hf. unfold normalize_time_agent._parse_dt in Hp. rewrite Hf in Hp.
    simpl in Hp. by injection Hp as <-.
  - intros s -> Hs. unfold normalize_time_agent._parse_dt in Hp. simpl in Hp.
    destruct (String.eqb_spec s ""); [done|]. simpl in Hp.
    destruct (strptime E s "%Y-%m-%dT%H:%M"); [done|].
    destruct (strptime E s "%Y-%m-%d"); [done|]. by injection Hp as <-.
Qed.

Lemma normalize_time_reports_unparsable_time_witness :
  (exists p',
     normalize_time_agent.normalize_time
       (with_time_range {[ "kind" := PStr "absolute"; "start" := PStr "next week" ]})
       (fresh sc_no_api_key)
     = (Ret (time_failure (exn_msg (ValueError "无法解析时间字符串: next week"))), p')) /\
  (truthy (PStr "next week") = false ->
   exn_msg (ValueError "无法解析时间字符串: next week") = "空字符串无法解析时间") /\
  (forall s, PStr "next week" = PStr s -> s <> "" ->
             exn_msg (ValueError "无法解析时间字符串: next week")
             = "无法解析时间字符串: " +:+ s).
Proof.
  apply (normalize_time_reports_unparsable_time (world_of sc_no_api_key)
           {[ "kind" := PStr "absolute"; "start" := PStr "next week" ]}
           (PStr "next week") (ValueError "无法解析时间字符串: next week")).
  - left. split; vm_compute; reflexivity.
  - vm_compute. reflexivity.
Defined.

(** X11: a time_range that is truthy but not a dictionary (a string, a
    number, a list) is handled inside the try block: normalize_time returns
    the failure record with the AttributeError text for the value's type;
    unlike the router after execute-query, it does not raise. *)
Theorem normalize_time_time_range_not_a_dict (E : Env) (h : Hints) (v : pyval)
    (p : Proc E) :
  h !! "time_range" = Some v ->
  truthy v = true ->
  (forall d, v <> PDict d) ->
  exists p',
    normalize_time_agent.normalize_time h p
    = (Ret (time_failure ("'" +:+ type_name v +:+ "' object has no attribute 'get'")), p').
Proof.
  intros Hv Ht Hd.
  destruct (datetime_now E (world p)) as [now w] eqn:Hnow.
  eexists. rewrite (normalize_time_run _ _ _ _ Hnow). rewrite Hv, Ht.
  unfold normalize_time_agent.normalize_time_body.
  destruct v; try reflexivity. by destruct (Hd d).
Qed.

Lemma normalize_time_time_range_not_a_dict_witness :
  exists p',
    normalize_time_agent.normalize_time
      ({[ "time_range" := PStr "yesterday" ]} : Hints) (fresh sc_no_api_key)
    = (Ret (time_failure ("'" +:+ type_name (PStr "yesterday")
                            +:+ "' object has no attribute 'get'")), p').
Proof.
  apply (normalize_time_time_range_not_a_dict (world_of sc_no_api_key)
           {[ "time_range" := PStr "yesterday" ]} (PStr "yesterday")).
  - vm_compute. reflexivity.
  - reflexivity.
  - intros d. discriminate.
Defined.

(** * Further properties of intent parsing *)

Ltac look :=
  simpl; repeat (rewrite lookup_insert_ne by done); rewrite ?lookup_insert_eq.

Section IntentShape.
Context {E : Env}.

Lemma mem_elem_of (s : string) (l : list string) : rag_agent.mem s l = true -> s ∈ l.
Proof. unfold rag_agent.mem. apply bool_decide_eq_true_1. Qed.

Lemma keep_needs_allowed (x : list pyval) :
  Forall allowed_need (rag_agent.keep_needs (E:=E) x).
Proof.
  induction x as [|v x IH]; simpl; [constructor|].
  destruct v; try exact IH.
  destruct (rag_agent.mem _ _) eqn:Hm; [|exact IH].
  constructor; [|exact IH]. eexists. split; [reflexivity|]. by apply mem_elem_of.
Qed.

Lemma normalize_need_shape (x : option pyval) :
  rag_agent._normalize_need (E:=E) x = PNone \/
  exists l, rag_agent._normalize_need (E:=E) x = PList l /\ Forall allowed_need l.
Proof.
  unfold rag_agent._normalize_need. destruct x as [v|]; [|by left].
  destruct (negb (truthy v)); [by left|].
  destruct v; try by left.
  - right. eexists. split; [reflexivity|]. apply keep_needs_allowed.
  - right. eexists. split; [reflexivity|]. apply keep_needs_allowed.
Qed.

Lemma neutral_well_formed (question reason : string) (p : Proc E) :
  exists h, rag_agent._neutral question reason p = (Ret h, p) /\ well_formed_hints h.
Proof.
  eexists. split; [reflexivity|]. unfold well_formed_hints.
  repeat split.
  - exists "other". split; [reflexivity|]. unfold rag_agent.ALLOWED_QTYPE. set_solver.
  - intros s Hs. vm_compute in Hs. discriminate.
  - exists false. split; [reflexivity|]. intros Hs. vm_compute in Hs. discriminate.
  - by left.
  - by left.
  - by left.
  - by eexists.
  - by eexists.
  - by eexists.
Qed.

Lemma clean_fields_well_formed (data : Hints) (path : string) :
  well_formed_hints (rag_agent.clean_fields (E:=E) data path).
Proof.
  unfold well_formed_hints, rag_agent.clean_fields. cbv zeta.
  repeat split.
  - eexists. split; [reflexivity|].
    destruct (rag_agent.mem _ rag_agent.ALLOWED_QTYPE) eqn:Hm.
    + by apply mem_elem_of.
    + unfold rag_agent.ALLOWED_QTYPE. set_solver.
  - intros s. look.
    destruct (data !! "topology_intent") as [v|]; [|done].
    destruct v; try done.
    destruct (rag_agent.mem _ rag_agent.ALLOWED_TOPO_INTENT) eqn:Hm; [|done].
    intros [= <-]. by apply mem_elem_of.
  - eexists. split; [look; reflexivity|].
    look. simpl. intros Hn. rewrite Hn. apply orb_true_r.
  - look. destruct (normalize_need_shape (data !! "need")) as [->|(l & -> & Hl)].
    + by left.
    + right. by exists l.
  - look. destruct (data !! "metric") as [v|]; [|by left].
    destruct v; try by left.
    destruct (rag_agent.mem s _) eqn:Hm; [|by left].
    right. eexists. split; [reflexivity|]. by apply mem_elem_of.
  - look. destruct (data !! "time_range") as [v|]; [|by left].
    destruct v; try by left.
    destruct (d !! "kind") eqn:Hk; [|by left].
    right. eexists. split; [reflexivity|]. by rewrite Hk.
  - look. by eexists.
  - look. destruct (data !! "ambiguities") as [v|]; [|by eexists].
    destruct (truthy v); [|by eexists]. destruct v; by eexists.
  - look. by eexists.
Qed.
End IntentShape.

Section IntentRuns.
Context {E : Env}.

Lemma llm_parse_cases (question : string) (p p' : Proc E) (h : Hints) :
  rag_agent.llm_parse question p = (Ret h, p') ->
  (exists reason (p0 : Proc E), rag_agent._neutral question reason p0 = (Ret h, p0)) \/
  (exists data path, h = rag_agent.clean_fields (E:=E) data path).
Proof.
  unfold rag_agent.llm_parse. unfold mbind at 1, M_bind at 1.
  destruct (rag_agent._load_prompt p) as [[[prompt|]|e] p1]; [| |discriminate].
  2:{ intros [= <- <-]. left. by exists "no-prompt", p1. }
  destruct prompt as [|c prompt].
  { intros [= <- <-]. left. by exists "no-prompt", p1. }
  unfold mbind at 1, M_bind at 1.
  destruct (rag_agent._get_llm p1) as [[[llm|]|e] p2]; [| |discriminate].
  2:{ intros [= <- <-]. left. by exists "no-llm", p2. }
  unfold try_except at 1.
  match goal with |- context [mbind ?k ?m p2] => destruct (mbind k m p2) as [[h0|e] p3] eqn:Hbody end.
  2:{ intros [= <- <-]. left. by exists "llm-error", p3. }
  intros [= -> ->]. revert Hbody.
  unfold mbind at 1, M_bind at 1, ask at 1.
  destruct (strftime_today E (world p2)) as [today w].
  unfold mbind at 1, M_bind at 1.
  match goal with |- context [try_except ?b ?hd ?s] => destruct (try_except b hd s) as [[text|e] p4] end;
    [|discriminate].
  destruct (rag_agent._safe_json_from_text text) as [data|].
  2:{ intros [= <- <-]. left. by exists "parse-error", p4. }
  destruct (negb (truthy (PDict data))).
  { intros [= <- <-]. left. by exists "parse-error", p4. }
  intros [= <- _]. right. by eexists _, _.
Qed.

Lemma llm_parse_after_prompt (question : string) (prompt : option string)
    (p p1 : Proc E) :
  rag_agent._load_prompt p = (Ret prompt, p1) ->
  exists h p2, rag_agent.llm_parse question p = (Ret h, p2).
Proof.
  intros Hload. unfold rag_agent.llm_parse. unfold mbind at 1, M_bind at 1.
  rewrite Hload.
  match goal with
  | |- exists h p2, ?m p1 = _ => assert (never_raises m) as Hn
  end.
  { unfold rag_agent._neutral, rag_agent._get_llm.
    destruct prompt as [[|c prompt]|]; safe. }
  apply Hn.
Qed.
End IntentRuns.

(** X12: whatever the chat model replies, the hints llm_parse returns are
    well formed: question_type is one of timeseries, topology, other; a
    topology_intent that is a string is one of the three allowed intents;
    need is None or a list of names among avg, max, min, trend; need_stats
    is a boolean, true whenever need is a non-empty list; metric is None or
    one of temp, rh, lux, co2, pm25; time_range is None or a dictionary
    with a kind; uncertain is a boolean and ambiguities a list. *)
Theorem llm_parse_hints_well_formed (E : Env) (question : string) (p p' : Proc E)
    (h : Hints) :
  rag_agent.llm_parse question p = (Ret h, p') -> well_formed_hints h.
Proof.
  intros H. destruct (llm_parse_cases _ _ _ _ H) as [(reason & p0 & Hn)|(data & path & ->)].
  - destruct (neutral_well_formed (E:=E) question reason p0) as (h' & Hn' & Hw).
    rewrite Hn in Hn'. by injection Hn' as ->.
  - apply clean_fields_well_formed.
Qed.

Lemma llm_parse_hints_well_formed_witness :
  well_formed_hints
    (list_to_map
       [ ("question_type", PStr "timeseries"); ("topology_intent", PNone);
         ("need_stats", PBool true);
         ("need", PList [PStr "avg"]); ("room", PNone); ("metric", PNone);
         ("time_range", PNone);
         ("uncertain", PBool false); ("ambiguities", PList []);
         ("_source", PStr "llm");
         ("_prompt", PStr "prompt/prompt.md") ]).
Proof.
  apply (llm_parse_hints_well_formed (world_of sc_model_replies)
           "average temperature?" (fresh sc_model_replies)
           (@mkProc (world_of sc_model_replies)
              (Some "You are a building assistant.") (Some tt) None tt)).
  vm_compute. reflexivity.
Defined.

(** X13: llm_parse raises only when reading the prompt file raises: then
    no prompt was cached, the exception is the one of the read, and nothing
    but the outside world has changed.  Once the prompt is available every
    later failure (no model, an exception of the model, a reply that is not
    a JSON object) is turned into a returned record. *)
Theorem llm_parse_raises_only_from_prompt_file (E : Env) (question : string)
    (p p' : Proc E) (e : exn) :
  rag_agent.llm_parse question p = (Raise e, p') ->
  _prompt_cache p = None /\
  read_prompt_file E (world p) = (Raise e, world p') /\
  p' = set_world (world p') p.
Proof.
  unfold rag_agent.llm_parse. unfold mbind at 1, M_bind at 1.
  destruct (rag_agent._load_prompt p) as [[prompt|e0] p1] eqn:Hload.
  - destruct (llm_parse_after_prompt question prompt p p1 Hload) as (h & p2 & Hrun).
    unfold rag_agent.llm_parse in Hrun. unfold mbind at 1, M_bind at 1 in Hrun.
    rewrite Hload in Hrun. rewrite Hrun. discriminate.
  - intros [= <- <-]. revert Hload.
    unfold rag_agent._load_prompt, gets, call, zoom, modify, mbind, M_bind. simpl.
    destruct (_prompt_cache p) as [c|] eqn:Hc; [discriminate|].
    destruct (read_prompt_file E (world p)) as [[[txt|]|e1] w]; simpl; try discriminate.
    intros [= <- <-]. simpl. done.
Qed.

Lemma llm_parse_raises_only_from_prompt_file_witness :
  _prompt_cache (fresh sc_prompt_unreadable) = None /\
  read_prompt_file (world_of sc_prompt_unreadable) (world (fresh sc_prompt_unreadable))
  = (Raise (Exn "UnicodeDecodeError" "invalid start byte"),
     world (fresh sc_prompt_unreadable)) /\
  fresh sc_prompt_unreadable
  = set_world (world (fresh sc_prompt_unreadable)) (fresh sc_prompt_unreadable).
Proof.
  apply (llm_parse_raises_only_from_prompt_file (world_of sc_prompt_unreadable)
           "temperature in room 1205?" (fresh sc_prompt_unreadable)
           (fresh sc_prompt_unreadable) (Exn "UnicodeDecodeError" "invalid start byte")).
  vm_compute. reflexivity.
Defined.

(** X14: the prompt text and the chat model are cached on success only.
    After _load_prompt (resp. _get_llm) has returned a value, every later
    call returns the same value without consulting the outside world,
    whatever has become of the file or the API key; after it has returned
    None or raised, the cache is still empty if it was, so a later call
    looks again. *)
Theorem prompt_and_model_cached_on_success (E : Env) (p : Proc E) :
  match rag_agent._load_prompt p with
  | (Ret (Some t), p1) =>
      forall w, rag_agent._load_prompt (set_world w p1) = (Ret (Some t), set_world w p1)
  | (_, p1) => _prompt_cache p1 = None
  end /\
  match rag_agent._get_llm p with
  | (Ret (Some l), p1) =>
      forall w, rag_agent._get_llm (set_world w p1) = (Ret (Some l), set_world w p1)
  | (_, p1) => _LLM p1 = None
  end.
Proof.
  split.
  - unfold rag_agent._load_prompt, gets, call, zoom, modify, mbind, M_bind. simpl.
    destruct (_prompt_cache p) as [c|] eqn:Hc; simpl.
    + intros w. by rewrite Hc.
    + destruct (read_prompt_file E (world p)) as [[[txt|]|e1] w]; simpl; done.
  - unfold rag_agent._get_llm, gets, ask, modify, mbind, M_bind. simpl.
    destruct (_LLM p) as [c|] eqn:Hc; simpl.
    + intros w. by rewrite Hc.
    + destruct (init_chat_model E (world p)) as [[l|] w]; simpl; done.
Qed.

(** * Further properties of the query executor *)


(** X16: _norm_row only ever adds the key tsid: every binding of the row
    is kept with its value, a row with ts_id and no tsid gains tsid with
    the value of ts_id, an existing tsid is never overwritten, and
    normalising twice is the same as normalising once. *)
Theorem norm_row_adds_only_tsid (item : Row) :
  (forall k v, item !! k = Some v -> sparql_exec._norm_row item !! k = Some v) /\
  (forall k, k <> "tsid" -> sparql_exec._norm_row item !! k = item !! k) /\
  (item !! "tsid" = None -> sparql_exec._norm_row item !! "tsid" = item !! "ts_id") /\
  sparql_exec._norm_row (sparql_exec._norm_row item) = sparql_exec._norm_row item.
Proof.
  unfold sparql_exec._norm_row.
  destruct (item !! "tsid") as [t|] eqn:Ht.
  - repeat split; try done. by rewrite Ht.
  - destruct (item !! "ts_id") as [v|] eqn:Hv.
    + repeat split.
      * intros k v' Hk. destruct (decide (k = "tsid")) as [->|Hne]; [congruence|].
        by rewrite lookup_insert_ne.
      * intros k Hk. by rewrite lookup_insert_ne.
      * intros _. apply lookup_insert_eq.
      * by rewrite lookup_insert_eq.
    + repeat split; try done. by rewrite Ht, Hv.
Qed.

#[local] Arguments Ascii.eqb : simpl never.

Section Brackets.

Lemma opener_cases (c : ascii) :
  opener c = true -> c = "("%char \/ c = "{"%char \/ c = "["%char.
Proof.
  unfold opener. intros H.
  apply orb_true_iff in H as [H|H]; [apply orb_true_iff in H as [H|H]|];
    apply Ascii.eqb_eq in H; auto.
Qed.

Lemma closer_opener (op ch : ascii) :
  opener op = true -> Ascii.eqb (sparql_exec.closer op) ch = true ->
  opener ch = false /\
  forall c, opener c = true ->
    (if Ascii.eqb op c then 1 else 0) = (if Ascii.eqb ch (sparql_exec.closer c) then 1 else 0).
Proof.
  intros Hop Hch. apply Ascii.eqb_eq in Hch. subst ch.
  destruct (opener_cases op Hop) as [-> | [-> | ->] ];
    (split; [reflexivity|]);
    intros c Hc; destruct (opener_cases c Hc) as [-> | [-> | ->] ]; reflexivity.
Qed.

Lemma brackets_counts (q : string) (stack stack' : list ascii) (c : ascii) :
  Forall (fun op => opener op = true) stack ->
  opener c = true ->
  sparql_exec.brackets q stack = Some stack' ->
  count_char c q + count_stack c stack
  = count_char (sparql_exec.closer c) q + count_stack c stack'.
Proof.
  revert stack. induction q as [|ch rest IH]; intros stack Hst Hc; simpl.
  - by intros [= ->].
  - fold (opener ch). destruct (opener ch) eqn:Hch.
    + intros H. apply IH in H; [|by constructor|done]. simpl in H.
      assert (Ascii.eqb ch (sparql_exec.closer c) = false) as ->.
      { destruct (opener_cases ch Hch) as [-> | [-> | ->] ];
          destruct (opener_cases c Hc) as [-> | [-> | ->] ]; reflexivity. }
      lia.
    + destruct (Ascii.eqb ch ")" || Ascii.eqb ch "}" || Ascii.eqb ch "]") eqn:Hcl.
      * destruct stack as [|op stack1]; [done|].
        destruct (Ascii.eqb (sparql_exec.closer op) ch) eqn:Hm; [|done].
        apply Forall_cons in Hst as [Hop Hst1].
        destruct (closer_opener op ch Hop Hm) as [_ Hcount].
        intros H. apply IH in H; [|done|done]. simpl.
        assert (Ascii.eqb ch c = false) as ->.
        { destruct (Ascii.eqb_spec ch c) as [->|]; [congruence|done]. }
        rewrite (Hcount c Hc). lia.
      * intros H. apply IH in H; [|done|done].
        assert (Ascii.eqb ch c = false) as ->.
        { destruct (Ascii.eqb_spec ch c) as [->|]; [congruence|done]. }
        assert (Ascii.eqb ch (sparql_exec.closer c) = false) as ->.
        { apply orb_false_iff in Hcl as [Hcl H3]. apply orb_false_iff in Hcl as [H1 H2].
          destruct (opener_cases c Hc) as [-> | [-> | ->] ]; assumption. }
        lia.
Qed.
End Brackets.

(** X17: a query accepted by _basic_syntax_check is not empty and has as
    many closing as opening brackets of each of the three kinds. *)
Theorem basic_syntax_check_balanced (E : Env) (q : string) :
  sparql_exec._basic_syntax_check (E:=E) q = true ->
  q <> "" /\
  count_char "(" q = count_char ")" q /\
  count_char "{" q = count_char "}" q /\
  count_char "[" q = count_char "]" q.
Proof.
  unfold sparql_exec._basic_syntax_check.
  destruct (String.eqb_spec q ""); [done|].
  destruct (sparql_exec.brackets q []) as [[|? ?]|] eqn:Hb; [|done|done].
  intros _. split; [done|].
  pose proof (brackets_counts q [] [] "(" (Forall_nil_2 _) eq_refl Hb) as H1.
  pose proof (brackets_counts q [] [] "{" (Forall_nil_2 _) eq_refl Hb) as H2.
  pose proof (brackets_counts q [] [] "[" (Forall_nil_2 _) eq_refl Hb) as H3.
  change (sparql_exec.closer "(") with ")"%char in H1.
  change (sparql_exec.closer "{") with "}"%char in H2.
  change (sparql_exec.closer "[") with "]"%char in H3.
  simpl in H1, H2, H3. lia.
Qed.

Lemma basic_syntax_check_balanced_witness :
  all_rooms_sparql <> "" /\
  count_char "(" all_rooms_sparql = count_char ")" all_rooms_sparql /\
  count_char "{" all_rooms_sparql = count_char "}" all_rooms_sparql /\
  count_char "[" all_rooms_sparql = count_char "]" all_rooms_sparql.
Proof.
  apply (basic_syntax_check_balanced (world_of sc_no_api_key) all_rooms_sparql).
  vm_compute. reflexivity.
Defined.
